(** * Workload discovery of robusta_krr: a shallow embedding

    Source: [src/robusta_krr/core/integrations/kubernetes.py]
    (classes [ClusterLoader] and [KubernetesLoader]).

    Python strings are [string]; a value that may be [None] is an [option];
    a call that may raise returns a [Result]; a dict read through [.items()]
    is an association list in insertion order.  One cluster is a snapshot:
    a client method asked twice with the same arguments answers the same. *)

From Stdlib Require Import String Ascii List Bool Arith Lia.
Import ListNotations.
Open Scope string_scope.

(** ** Python exceptions and fallible calls *)

(** The exceptions that reach this module.  All of them derive from
    [Exception], the class caught by the [except] clause of
    [ClusterLoader.list_scannable_objects]. *)
Inductive PyExc : Type :=
| AttributeError (msg : string)
| TypeError (msg : string)
| ApiException (msg : string)
| ConfigException (msg : string).

Inductive Result (A : Type) : Type :=
| Ok (a : A)
| Raise (e : PyExc).

Arguments Ok {A} a.
Arguments Raise {A} e.

Definition bind {A B : Type} (r : Result A) (k : A -> Result B) : Result B :=
  match r with
  | Ok a => k a
  | Raise e => Raise e
  end.

Notation "x <- r ;; k" := (bind r (fun x => k))
  (at level 61, r at next level, right associativity).

(** [await asyncio.gather( *tasks )]: the results in the order of the
    awaitables when every one of them returns, an exception of one of them
    otherwise.  Which exception surfaces when several tasks fail depends on
    scheduling; the model takes the first in list order, and the only
    handler in this module discards its identity. *)
Fixpoint gather {A : Type} (tasks : list (Result A)) : Result (list A) :=
  match tasks with
  | [] => Ok []
  | t :: rest =>
      match t, gather rest with
      | Ok a, Ok l => Ok (a :: l)
      | Raise e, _ => Raise e
      | Ok _, Raise e => Raise e
      end
  end.

(** ** Strings *)

(** [str.lower()] on the ASCII letters.  On the two comparisons below it
    decides as Python does: no character outside ASCII lowercases to a
    letter of "exists" or "doesnotexist". *)
Definition lower_ascii (c : ascii) : ascii :=
  let n := nat_of_ascii c in
  if ((65 <=? n)%nat && (n <=? 90)%nat)%bool then ascii_of_nat (n + 32) else c.

Fixpoint lower (s : string) : string :=
  match s with
  | EmptyString => EmptyString
  | String c rest => String (lower_ascii c) (lower rest)
  end.

(** [sep.join(parts)] *)
Definition join (sep : string) (parts : list string) : string :=
  String.concat sep parts.

(** ** The objects of the Kubernetes client *)

(** [V1LabelSelectorRequirement] *)
Record V1LabelSelectorRequirement : Type := {
  key : string;
  operator : string;
  values : option (list string)
}.

(** [V1LabelSelector]: both fields are optional in the client. *)
Record V1LabelSelector : Type := {
  match_labels : option (list (string * string));
  match_expressions : option (list V1LabelSelectorRequirement)
}.

(** [V1Container], with the part of [resources] read downstream. *)
Record V1Container : Type := {
  c_name : string;
  c_requests : option (list (string * string));
  c_limits : option (list (string * string))
}.

(** A workload: [metadata.namespace], [metadata.name], [spec.selector] and
    [spec.template.spec.containers]. *)
Record Workload : Type := {
  w_namespace : string;
  w_name : string;
  w_selector : option V1LabelSelector;
  w_containers : list V1Container
}.

(** The class of an item, as [item.__class__] sees it. *)
Inductive K8sItem : Type :=
| V1Deployment (w : Workload)
| V1StatefulSet (w : Workload)
| V1DaemonSet (w : Workload)
| V1Job (w : Workload).

Definition class_name (item : K8sItem) : string :=
  match item with
  | V1Deployment _ => "V1Deployment"
  | V1StatefulSet _ => "V1StatefulSet"
  | V1DaemonSet _ => "V1DaemonSet"
  | V1Job _ => "V1Job"
  end.

Definition body (item : K8sItem) : Workload :=
  match item with
  | V1Deployment w | V1StatefulSet w | V1DaemonSet w | V1Job w => w
  end.

(** [V1Pod]: the name and what else a pod carries. *)
Record V1Pod : Type := {
  p_name : string;
  p_phase : string
}.

(** Modelled from the spec: [ResourceAllocations] of
    [robusta_krr.core.models.result] is not among the sources.  "Requested/limit
    CPU and memory extracted from that container's resource spec; each of
    requests/limits may be absent", the units being opaque strings. *)
Record Resources : Type := {
  cpu : option string;
  memory : option string
}.

Record ResourceAllocations : Type := {
  requests : Resources;
  limits : Resources
}.

Fixpoint dict_get (k : string) (d : list (string * string)) : option string :=
  match d with
  | [] => None
  | (k', v) :: rest => if k' =? k then Some v else dict_get k rest
  end.

Definition resources_of (d : option (list (string * string))) : Resources :=
  match d with
  | None => {| cpu := None; memory := None |}
  | Some m => {| cpu := dict_get "cpu" m; memory := dict_get "memory" m |}
  end.

(** Modelled from the spec: [ResourceAllocations.from_container]. *)
Definition from_container (c : V1Container) : ResourceAllocations :=
  {| requests := resources_of (c_requests c);
     limits := resources_of (c_limits c) |}.

(** [K8sObjectData] of [robusta_krr.core.models.objects]. *)
Record K8sObjectData : Type := {
  cluster : option string;
  namespace : string;
  name : string;
  kind : string;
  container : string;
  allocations : ResourceAllocations;
  pods : list string
}.

(** The client of one cluster: [AppsV1Api], [BatchV1Api] and [CoreV1Api]. *)
Record ClusterApi : Type := {
  list_deployment_for_all_namespaces : Result (list Workload);
  list_stateful_set_for_all_namespaces : Result (list Workload);
  list_daemon_set_for_all_namespaces : Result (list Workload);
  list_job_for_all_namespaces : Result (list Workload);
  list_namespaced_pod : string -> string -> Result (list V1Pod)
}.

(** A request sent to the cluster. *)
Inductive ApiCall : Type :=
| ListNamespacedPod (ns : string) (label_selector : string).

(** ** Configuration *)

(** [config.namespaces]: the literal "*" or a list of names. *)
Inductive Namespaces : Type :=
| NsAll
| NsList (l : list string).

(** [config.clusters]: [None], the literal "*" or a list of names. *)
Inductive Clusters : Type :=
| ClNone
| ClAll
| ClList (l : list string).

Record Config : Type := {
  namespaces : Namespaces;
  clusters : Clusters;
  inside_cluster : bool
}.

(** What lies outside the process: the kube-config store, the client that
    [config.new_client_from_config] builds for a named context, which raises
    when the context cannot be used, and the default client that the API
    objects fall back on when they are given none. *)
Record KubeContext : Type := {
  ctx_name : string
}.

Record Kube : Type := {
  list_kube_config_contexts : Result (list KubeContext * KubeContext);
  new_client_from_config : string -> Result ClusterApi;
  default_client : ClusterApi
}.

(** ** ClusterLoader *)

(** [[f(x) for x in xs]] where [f] may raise: the first failure ends it. *)
Fixpoint comprehension {A B : Type} (f : A -> Result B) (xs : list A)
  : Result (list B) :=
  match xs with
  | [] => Ok []
  | x :: rest =>
      y <- f x ;;
      ys <- comprehension f rest ;;
      Ok (y :: ys)
  end.

(** [s[2:]] *)
Definition slice_from_2 (s : string) : string :=
  String.substring 2 (String.length s - 2) s.

Module ClusterLoader.

Record t : Type := {
  self_cluster : option string;
  self_config : Config;
  self_api : ClusterApi
}.

(** [__init__]: a named cluster has its client built, which may raise;
    without a name nothing is built and the default client serves. *)
Definition init (kube : Kube) (cluster : option string) (config : Config)
  : Result t :=
  api_client <- match cluster with
                | Some context => new_client_from_config kube context
                | None => Ok (default_client kube)
                end ;;
  Ok {| self_cluster := cluster;
        self_config := config;
        self_api := api_client |}.

Definition _get_match_expression_filter (expression : V1LabelSelectorRequirement)
  : Result string :=
  if lower (operator expression) =? "exists" then
    Ok (key expression)
  else if lower (operator expression) =? "doesnotexist" then
    Ok ("!" ++ key expression)
  else
    match values expression with
    | None => Raise (TypeError "can only join an iterable")
    | Some vs =>
        let values := join "," vs in
        Ok (key expression ++ " " ++ operator expression ++ " (" ++ values ++ ")")
    end.

(** Annotated [Union[str, None]]; reading [.match_labels] of an absent
    selector or [.items()] of absent labels is an [AttributeError]. *)
Definition _build_selector_query (selector : option V1LabelSelector)
  : Result (option string) :=
  match selector with
  | None => Raise (AttributeError "'NoneType' object has no attribute 'match_labels'")
  | Some selector =>
      match match_labels selector with
      | None => Raise (AttributeError "'NoneType' object has no attribute 'items'")
      | Some labels =>
          let label_filters := map (fun label => fst label ++ "=" ++ snd label) labels in
          match match_expressions selector with
          | None => Ok (Some (join "," label_filters))
          | Some expressions =>
              more <- comprehension _get_match_expression_filter expressions ;;
              Ok (Some (join "," (label_filters ++ more)))
          end
      end
  end.

(** The requests sent, and the outcome. *)
Definition __list_pods (self : t) (resource : K8sItem)
  : list ApiCall * Result (list string) :=
  match _build_selector_query (w_selector (body resource)) with
  | Raise e => ([], Raise e)
  | Ok None => ([], Ok [])
  | Ok (Some selector) =>
      let ns := w_namespace (body resource) in
      ([ListNamespacedPod ns selector],
       ret <- list_namespaced_pod (self_api self) ns selector ;;
       Ok (map p_name ret))
  end.

Definition __build_obj (self : t) (item : K8sItem) (container : V1Container)
  : Result K8sObjectData :=
  pods <- snd (__list_pods self item) ;;
  Ok {| cluster := self_cluster self;
        namespace := w_namespace (body item);
        name := w_name (body item);
        kind := slice_from_2 (class_name item);
        container := c_name container;
        allocations := from_container container;
        pods := pods |}.

Definition _list_deployments (self : t) : Result (list K8sObjectData) :=
  ret <- list_deployment_for_all_namespaces (self_api self) ;;
  gather (flat_map (fun item =>
                      map (fun container => __build_obj self item container)
                          (w_containers (body item)))
                   (map V1Deployment ret)).

Definition _list_all_statefulsets (self : t) : Result (list K8sObjectData) :=
  ret <- list_stateful_set_for_all_namespaces (self_api self) ;;
  gather (flat_map (fun item =>
                      map (fun container => __build_obj self item container)
                          (w_containers (body item)))
                   (map V1StatefulSet ret)).

Definition _list_all_daemon_set (self : t) : Result (list K8sObjectData) :=
  ret <- list_daemon_set_for_all_namespaces (self_api self) ;;
  gather (flat_map (fun item =>
                      map (fun container => __build_obj self item container)
                          (w_containers (body item)))
                   (map V1DaemonSet ret)).

Definition _list_all_jobs (self : t) : Result (list K8sObjectData) :=
  ret <- list_job_for_all_namespaces (self_api self) ;;
  gather (flat_map (fun item =>
                      map (fun container => __build_obj self item container)
                          (w_containers (body item)))
                   (map V1Job ret)).

(** The four coroutines handed to [asyncio.gather]. *)
Definition kind_listings (self : t) : list (Result (list K8sObjectData)) :=
  [ _list_deployments self;
    _list_all_statefulsets self;
    _list_all_daemon_set self;
    _list_all_jobs self ].

(** [obj.namespace in self.config.namespaces] *)
Definition py_in (x : string) (l : list string) : bool :=
  existsb (String.eqb x) l.

Definition list_scannable_objects (self : t) : list K8sObjectData :=
  match gather (kind_listings self) with
  | Raise e => []
  | Ok objects_tuple =>
      match namespaces (self_config self) with
      | NsAll =>
          filter (fun obj => negb (namespace obj =? "kube-system"))
                 (concat objects_tuple)
      | NsList l =>
          filter (fun obj => py_in (namespace obj) l) (concat objects_tuple)
      end
  end.

End ClusterLoader.

(** ** KubernetesLoader *)

Module KubernetesLoader.

(** [not self.config.clusters]: [None] and the empty list are falsy. *)
Definition falsy (c : Clusters) : bool :=
  match c with
  | ClNone => true
  | ClList [] => true
  | _ => false
  end.

Definition list_clusters (kube : Kube) (config : Config)
  : Result (option (list string)) :=
  if inside_cluster config then Ok None
  else
    cc <- list_kube_config_contexts kube ;;
    let (contexts, current_context) := cc in
    if falsy (clusters config) then
      Ok (Some [ctx_name current_context])
    else
      match clusters config with
      | ClAll => Ok (Some (map ctx_name contexts))
      | ClList l =>
          Ok (Some (map ctx_name
                        (filter (fun context => ClusterLoader.py_in (ctx_name context) l)
                                contexts)))
      | ClNone => Ok (Some [ctx_name current_context])
      end.

(** The loaders are built one after the other, outside any handler: the
    first constructor that raises ends the scan. *)
Definition cluster_loaders (kube : Kube) (config : Config)
           (clusters : option (list string)) : Result (list ClusterLoader.t) :=
  match clusters with
  | None =>
      cluster_loader <- ClusterLoader.init kube None config ;;
      Ok [cluster_loader]
  | Some clusters =>
      comprehension (fun cluster => ClusterLoader.init kube (Some cluster) config)
                    clusters
  end.

(** The coroutine of a cluster loader catches what its body raises, so
    each awaitable of this [gather] returns. *)
Definition list_scannable_objects (kube : Kube) (config : Config)
           (clusters : option (list string)) : Result (list K8sObjectData) :=
  cluster_loaders <- cluster_loaders kube config clusters ;;
  objects <- gather (map (fun cluster_loader =>
                            Ok (ClusterLoader.list_scannable_objects cluster_loader))
                         cluster_loaders) ;;
  Ok (concat objects).

End KubernetesLoader.

(** ** Vocabulary of the properties *)

(** Equality of two strings up to the case of ASCII letters. *)
Fixpoint eq_nocase (a b : string) : bool :=
  match a, b with
  | EmptyString, EmptyString => true
  | String x a', String y b' =>
      (Ascii.eqb (lower_ascii x) (lower_ascii y) && eq_nocase a' b')%bool
  | _, _ => false
  end.

(** The term of a match-label pair. *)
Definition label_term (kv : string * string) : string :=
  fst kv ++ "=" ++ snd kv.

(** The term of a match-expression whose values are [vs]. *)
Definition expression_term (k op : string) (vs : list string) : string :=
  if eq_nocase op "Exists" then k
  else if eq_nocase op "DoesNotExist" then "!" ++ k
  else k ++ " " ++ op ++ " (" ++ join "," vs ++ ")".

(** An expression that renders without reading its values. *)
Definition exempt (e : V1LabelSelectorRequirement) : bool :=
  (eq_nocase (operator e) "Exists" || eq_nocase (operator e) "DoesNotExist")%bool.

Definition values_or_empty (e : V1LabelSelectorRequirement) : list string :=
  match values e with
  | Some vs => vs
  | None => []
  end.

Definition expressions_of (s : V1LabelSelector) : list V1LabelSelectorRequirement :=
  match match_expressions s with
  | Some es => es
  | None => []
  end.

(** A selector the builder cannot render: absent match-labels, or an
    expression that is not exempt and has no values. *)
Definition malformed (s : V1LabelSelector) : Prop :=
  match_labels s = None \/
  exists e, In e (expressions_of s) /\ exempt e = false /\ values e = None.

(** The items of the kind listings that returned. *)
Definition items_of (wrap : Workload -> K8sItem) (r : Result (list Workload))
  : list K8sItem :=
  match r with
  | Ok ws => map wrap ws
  | Raise _ => []
  end.

Definition listed_items (api : ClusterApi) : list K8sItem :=
  items_of V1Deployment (list_deployment_for_all_namespaces api)
  ++ items_of V1StatefulSet (list_stateful_set_for_all_namespaces api)
  ++ items_of V1DaemonSet (list_daemon_set_for_all_namespaces api)
  ++ items_of V1Job (list_job_for_all_namespaces api).

(** The pod names correlated with an item, none when correlation fails. *)
Definition pod_names (self : ClusterLoader.t) (item : K8sItem) : list string :=
  match snd (ClusterLoader.__list_pods self item) with
  | Ok l => l
  | Raise _ => []
  end.

(** The record of one (workload, container) pair. *)
Definition record_of (self : ClusterLoader.t) (item : K8sItem) (c : V1Container)
  : K8sObjectData :=
  {| cluster := ClusterLoader.self_cluster self;
     namespace := w_namespace (body item);
     name := w_name (body item);
     kind := slice_from_2 (class_name item);
     container := c_name c;
     allocations := from_container c;
     pods := pod_names self item |}.

(** The records of a list of items, in the order of the items and, within
    an item, of its containers. *)
Definition records_of (self : ClusterLoader.t) (items : list K8sItem)
  : list K8sObjectData :=
  flat_map (fun item => map (record_of self item) (w_containers (body item))) items.

(** The namespace policy of a configuration. *)
Definition kept (config : Config) (obj : K8sObjectData) : Prop :=
  match namespaces config with
  | NsAll => namespace obj <> "kube-system"
  | NsList l => In (namespace obj) l
  end.

Definition keptb (config : Config) (obj : K8sObjectData) : bool :=
  match namespaces config with
  | NsAll => negb (namespace obj =? "kube-system")
  | NsList l => ClusterLoader.py_in (namespace obj) l
  end.

(** A client every call of which raises. *)
Definition raises_on_every_call (api : ClusterApi) : Prop :=
  (exists e, list_deployment_for_all_namespaces api = Raise e) /\
  (exists e, list_stateful_set_for_all_namespaces api = Raise e) /\
  (exists e, list_daemon_set_for_all_namespaces api = Raise e) /\
  (exists e, list_job_for_all_namespaces api = Raise e) /\
  (forall ns sel, exists e, list_namespaced_pod api ns sel = Raise e).

(** The four kinds, with the class of their items, the call that lists
    them and the coroutine that expands them. *)
Inductive Kind : Type := Deployment | StatefulSet | DaemonSet | Job.

Definition wrap (k : Kind) : Workload -> K8sItem :=
  match k with
  | Deployment => V1Deployment
  | StatefulSet => V1StatefulSet
  | DaemonSet => V1DaemonSet
  | Job => V1Job
  end.

Definition api_listing (k : Kind) (api : ClusterApi) : Result (list Workload) :=
  match k with
  | Deployment => list_deployment_for_all_namespaces api
  | StatefulSet => list_stateful_set_for_all_namespaces api
  | DaemonSet => list_daemon_set_for_all_namespaces api
  | Job => list_job_for_all_namespaces api
  end.

Definition kind_listing (k : Kind) : ClusterLoader.t -> Result (list K8sObjectData) :=
  match k with
  | Deployment => ClusterLoader._list_deployments
  | StatefulSet => ClusterLoader._list_all_statefulsets
  | DaemonSet => ClusterLoader._list_all_daemon_set
  | Job => ClusterLoader._list_all_jobs
  end.

(** The object-build tasks of a list of items. *)
Definition build_tasks (self : ClusterLoader.t) (items : list K8sItem)
  : list (Result K8sObjectData) :=
  flat_map (fun item =>
              map (fun container => ClusterLoader.__build_obj self item container)
                  (w_containers (body item)))
           items.

(** A kind listing raises, or the object-build task of a listed workload
    and one of its containers does. *)
Definition fails (self : ClusterLoader.t) : Prop :=
  (exists e, In (Raise e) (ClusterLoader.kind_listings self)) \/
  (exists item c e,
      In item (listed_items (ClusterLoader.self_api self)) /\
      In c (w_containers (body item)) /\
      ClusterLoader.__build_obj self item c = Raise e).

(** A cluster whose client raises on every call, the call that builds it
    included. *)
Definition unusable (kube : Kube) (c : string) : Prop :=
  match new_client_from_config kube c with
  | Ok api => raises_on_every_call api
  | Raise _ => True
  end.

(** The loader of a named cluster around a given client. *)
Definition loader_of (config : Config) (clients : string -> ClusterApi)
           (c : string) : ClusterLoader.t :=
  {| ClusterLoader.self_cluster := Some c;
     ClusterLoader.self_config := config;
     ClusterLoader.self_api := clients c |}.

(** ** A small world to run the code on *)

Module Sample.

Definition nothing : Resources := {| cpu := None; memory := None |}.

Definition app : V1Container :=
  {| c_name := "app";
     c_requests := Some [("cpu", "100m"); ("memory", "128Mi")];
     c_limits := None |}.

Definition sidecar : V1Container :=
  {| c_name := "sidecar"; c_requests := None; c_limits := Some [("cpu", "1")] |}.

Definition by_labels (l : list (string * string)) : option V1LabelSelector :=
  Some {| match_labels := Some l; match_expressions := None |}.

Definition web : Workload :=
  {| w_namespace := "default"; w_name := "web";
     w_selector := by_labels [("app", "web")];
     w_containers := [app; sidecar] |}.

Definition coredns : Workload :=
  {| w_namespace := "kube-system"; w_name := "coredns";
     w_selector := by_labels [("k8s-app", "kube-dns")];
     w_containers := [app] |}.

Definition db : Workload :=
  {| w_namespace := "data"; w_name := "db";
     w_selector := by_labels [("app", "db")];
     w_containers := [app] |}.

Definition agent : Workload :=
  {| w_namespace := "default"; w_name := "agent";
     w_selector := by_labels [("app", "agent")];
     w_containers := [sidecar] |}.

Definition migrate : Workload :=
  {| w_namespace := "data"; w_name := "migrate";
     w_selector := by_labels [("job-name", "migrate")];
     w_containers := [app] |}.

(** A workload that constrains nothing. *)
Definition unscoped : Workload :=
  {| w_namespace := "default"; w_name := "unscoped";
     w_selector := by_labels [];
     w_containers := [app] |}.

(** Selected by expressions only, as the API server returns it. *)
Definition by_expressions : V1LabelSelector :=
  {| match_labels := None;
     match_expressions :=
       Some [ {| key := "tier"; operator := "In"; values := Some ["a"; "b"] |} ] |}.

Definition no_values : V1LabelSelector :=
  {| match_labels := Some [];
     match_expressions :=
       Some [ {| key := "tier"; operator := "NotIn"; values := None |} ] |}.

Definition mixed : V1LabelSelector :=
  {| match_labels := Some [("app", "web"); ("env", "prod")];
     match_expressions :=
       Some [ {| key := "tier"; operator := "In"; values := Some ["a"; "b"] |};
              {| key := "canary"; operator := "EXISTS"; values := None |};
              {| key := "legacy"; operator := "doesNotExist"; values := Some [] |};
              {| key := "zone"; operator := "notin"; values := Some ["z1"] |} ] |}.

Definition odd : Workload :=
  {| w_namespace := "default"; w_name := "odd";
     w_selector := Some by_expressions;
     w_containers := [app] |}.

(** The same selector on a workload without containers. *)
Definition hollow : Workload :=
  {| w_namespace := "default"; w_name := "hollow";
     w_selector := Some by_expressions;
     w_containers := [] |}.

Definition pod (n : string) : V1Pod := {| p_name := n; p_phase := "Running" |}.

Definition answer_pods (ns sel : string) : Result (list V1Pod) :=
  if ((ns =? "default") && (sel =? "app=web"))%bool then
    Ok [pod "web-2"; pod "web-0"; pod "web-1"]
  else if ((ns =? "default") && (sel =? ""))%bool then
    Ok [pod "web-2"; pod "web-0"; pod "web-1"; pod "agent-x"]
  else Ok [].

Definition prod : ClusterApi :=
  {| list_deployment_for_all_namespaces := Ok [web; coredns];
     list_stateful_set_for_all_namespaces := Ok [db];
     list_daemon_set_for_all_namespaces := Ok [agent];
     list_job_for_all_namespaces := Ok [migrate];
     list_namespaced_pod := answer_pods |}.

Definition staging : ClusterApi :=
  {| list_deployment_for_all_namespaces := Ok [web];
     list_stateful_set_for_all_namespaces := Ok [];
     list_daemon_set_for_all_namespaces := Ok [];
     list_job_for_all_namespaces := Ok [];
     list_namespaced_pod := answer_pods |}.

Definition down : ClusterApi :=
  {| list_deployment_for_all_namespaces := Raise (ApiException "unreachable");
     list_stateful_set_for_all_namespaces := Raise (ApiException "unreachable");
     list_daemon_set_for_all_namespaces := Raise (ApiException "unreachable");
     list_job_for_all_namespaces := Raise (ApiException "unreachable");
     list_namespaced_pod := fun _ _ => Raise (ApiException "unreachable") |}.

(** [odd] next to a healthy deployment. *)
Definition tainted : ClusterApi :=
  {| list_deployment_for_all_namespaces := Ok [web; odd];
     list_stateful_set_for_all_namespaces := Ok [];
     list_daemon_set_for_all_namespaces := Ok [];
     list_job_for_all_namespaces := Ok [];
     list_namespaced_pod := answer_pods |}.

(** [hollow] next to a healthy deployment. *)
Definition harmless : ClusterApi :=
  {| list_deployment_for_all_namespaces := Ok [web; hollow];
     list_stateful_set_for_all_namespaces := Ok [];
     list_daemon_set_for_all_namespaces := Ok [];
     list_job_for_all_namespaces := Ok [];
     list_namespaced_pod := answer_pods |}.

(** The pod listing fails although the workloads are listed. *)
Definition forbidden : ClusterApi :=
  {| list_deployment_for_all_namespaces := Ok [web];
     list_stateful_set_for_all_namespaces := Ok [];
     list_daemon_set_for_all_namespaces := Ok [];
     list_job_for_all_namespaces := Ok [];
     list_namespaced_pod := fun _ _ => Raise (ApiException "403") |}.

(** The cluster behind a context name. *)
Definition api_of (c : string) : ClusterApi :=
  if c =? "prod" then prod
  else if c =? "staging" then staging
  else if c =? "tainted" then tainted
  else if c =? "harmless" then harmless
  else if c =? "forbidden" then forbidden
  else down.

(** The kube-config has an entry for six names; any other cannot be used. *)
Definition client (c : string) : Result ClusterApi :=
  if existsb (String.eqb c)
             ["prod"; "staging"; "tainted"; "harmless"; "forbidden"; "down"]
  then Ok (api_of c)
  else Raise (ConfigException "Invalid kube-config file").

Definition ctx (n : string) : KubeContext := {| ctx_name := n |}.

Definition kube : Kube :=
  {| list_kube_config_contexts :=
       Ok ([ctx "prod"; ctx "staging"; ctx "down"], ctx "staging");
     new_client_from_config := client;
     default_client := prod |}.

Definition no_store : Kube :=
  {| list_kube_config_contexts := Raise (ConfigException "no kube-config");
     new_client_from_config := client;
     default_client := prod |}.

Definition everything : Config :=
  {| namespaces := NsAll; clusters := ClAll; inside_cluster := false |}.

Definition only (ns : list string) (cs : Clusters) : Config :=
  {| namespaces := NsList ns; clusters := cs; inside_cluster := false |}.

Definition in_cluster : Config :=
  {| namespaces := NsAll; clusters := ClNone; inside_cluster := true |}.

(** The loader that [__init__] builds for a usable name. *)
Definition loader (c : string) (config : Config) : ClusterLoader.t :=
  {| ClusterLoader.self_cluster := Some c;
     ClusterLoader.self_config := config;
     ClusterLoader.self_api := api_of c |}.

(** The loader of the ambient context. *)
Definition ambient (config : Config) : ClusterLoader.t :=
  {| ClusterLoader.self_cluster := None;
     ClusterLoader.self_config := config;
     ClusterLoader.self_api := prod |}.

(** An existence test that carries values all the same. *)
Definition canary : V1LabelSelectorRequirement :=
  {| key := "canary"; operator := "Exists"; values := Some ["x"; "y"] |}.

(** What the four listings of [prod] return. *)
Definition prod_tuple : list (list K8sObjectData) :=
  match gather (ClusterLoader.kind_listings (loader "prod" everything)) with
  | Ok objects_tuple => objects_tuple
  | Raise _ => []
  end.

End Sample.


(** ** Lemmas on the plumbing *)

Lemma gather_Ok_inv {A : Type} (tasks : list (Result A)) (l : list A) :
  gather tasks = Ok l -> tasks = map Ok l.
Proof.
  revert l; induction tasks as [|t rest IH]; intros l H; simpl in H.
  - injection H as <-. reflexivity.
  - destruct t as [a|e]; [|discriminate].
    destruct (gather rest) as [l'|e] eqn:E; [|discriminate].
    injection H as <-. simpl. f_equal. now apply IH.
Qed.

Lemma gather_total {A B : Type} (f : A -> B) (l : list A) :
  gather (map (fun x => Ok (f x)) l) = Ok (map f l).
Proof.
  induction l as [|a l IH]; simpl; [reflexivity|now rewrite IH].
Qed.

Lemma gather_Raise {A : Type} (tasks : list (Result A)) (e : PyExc) :
  In (Raise e) tasks -> exists e', gather tasks = Raise e'.
Proof.
  induction tasks as [|t rest IH]; intros H; [destruct H|].
  destruct H as [->|H]; simpl.
  - now exists e.
  - destruct t as [a|e0]; [|now exists e0].
    destruct (IH H) as [e' ->]. now exists e'.
Qed.

Lemma gather_map_inv {A B : Type} (f : A -> Result B) (g : A -> B) (l : list A)
      (objs : list B) :
  (forall x y, f x = Ok y -> y = g x) ->
  gather (map f l) = Ok objs -> objs = map g l.
Proof.
  intros Hfg. revert objs; induction l as [|a l IH]; intros objs H; simpl in H.
  - injection H as <-. reflexivity.
  - destruct (f a) as [y|e] eqn:Ea; [|discriminate].
    destruct (gather (map f l)) as [l'|e] eqn:E; [|discriminate].
    injection H as <-. simpl. f_equal; [now apply Hfg|now apply IH].
Qed.

Lemma comprehension_Ok_inv {A B : Type} (f : A -> Result B) (xs : list A)
      (ys : list B) :
  comprehension f xs = Ok ys -> Forall2 (fun x y => f x = Ok y) xs ys.
Proof.
  revert ys; induction xs as [|x xs IH]; intros ys H; simpl in H.
  - injection H as <-. constructor.
  - destruct (f x) as [y|e] eqn:Ex; simpl in H; [|discriminate].
    destruct (comprehension f xs) as [ys'|e]; simpl in H; [|discriminate].
    injection H as <-. constructor; [assumption|now apply IH].
Qed.

Lemma comprehension_Raise_inv {A B : Type} (f : A -> Result B) (xs : list A)
      (exc : PyExc) :
  comprehension f xs = Raise exc -> exists x, In x xs /\ f x = Raise exc.
Proof.
  induction xs as [|x xs IH]; intros H; simpl in H; [discriminate|].
  destruct (f x) as [y|e] eqn:Ex; simpl in H.
  - destruct (comprehension f xs) as [ys|e]; simpl in H; [discriminate|].
    injection H as ->. destruct (IH eq_refl) as [x' [Hin Hx']].
    exists x'. split; [now right|assumption].
  - injection H as ->. exists x. split; [now left|assumption].
Qed.

(** A nested comprehension as one comprehension over the pairs. *)
Lemma flat_map_pairs {A B C : Type} (f : A -> B -> C) (cs : A -> list B)
      (l : list A) :
  flat_map (fun a => map (f a) (cs a)) l
  = map (fun p => f (fst p) (snd p)) (flat_map (fun a => map (pair a) (cs a)) l).
Proof.
  induction l as [|a l IH]; simpl; [reflexivity|].
  rewrite map_app, map_map, IH. reflexivity.
Qed.

Lemma length_flat_map_sum {A B : Type} (f : A -> list B) (l : list A) :
  length (flat_map f l) = list_sum (map (fun a => length (f a)) l).
Proof.
  induction l as [|a l IH]; simpl; [reflexivity|].
  now rewrite length_app, IH.
Qed.

(** ** Lemmas on strings *)

Lemma eq_nocase_lower (a b : string) :
  eq_nocase a b = (lower a =? lower b).
Proof.
  revert b; induction a as [|x a IH]; intros [|y b]; simpl; try reflexivity.
  rewrite IH. destruct (Ascii.eqb (lower_ascii x) (lower_ascii y)); reflexivity.
Qed.

Lemma lower_is_exists (op : string) :
  (lower op =? "exists") = eq_nocase op "Exists".
Proof. rewrite eq_nocase_lower. reflexivity. Qed.

Lemma lower_is_doesnotexist (op : string) :
  (lower op =? "doesnotexist") = eq_nocase op "DoesNotExist".
Proof. rewrite eq_nocase_lower. reflexivity. Qed.

Lemma py_in_In (x : string) (l : list string) :
  ClusterLoader.py_in x l = true <-> In x l.
Proof.
  unfold ClusterLoader.py_in. rewrite existsb_exists. split.
  - intros [y [Hy E]]. apply String.eqb_eq in E. now subst.
  - intros H. exists x. split; [assumption|apply String.eqb_refl].
Qed.

(** ** Lemmas on the selector builder *)

Lemma filter_of_exempt (e : V1LabelSelectorRequirement) :
  exempt e = true ->
  ClusterLoader._get_match_expression_filter e
  = Ok (expression_term (key e) (operator e) (values_or_empty e)).
Proof.
  unfold exempt, ClusterLoader._get_match_expression_filter, expression_term.
  rewrite lower_is_exists, lower_is_doesnotexist. intros H.
  destruct (eq_nocase (operator e) "Exists"); [reflexivity|].
  destruct (eq_nocase (operator e) "DoesNotExist"); [reflexivity|discriminate].
Qed.

Lemma filter_of_valued (e : V1LabelSelectorRequirement) (vs : list string) :
  values e = Some vs ->
  ClusterLoader._get_match_expression_filter e
  = Ok (expression_term (key e) (operator e) vs).
Proof.
  unfold ClusterLoader._get_match_expression_filter, expression_term.
  rewrite lower_is_exists, lower_is_doesnotexist. intros ->.
  destruct (eq_nocase (operator e) "Exists"); [reflexivity|].
  destruct (eq_nocase (operator e) "DoesNotExist"); reflexivity.
Qed.

Lemma filter_of_bare (e : V1LabelSelectorRequirement) :
  exempt e = false -> values e = None ->
  ClusterLoader._get_match_expression_filter e
  = Raise (TypeError "can only join an iterable").
Proof.
  unfold exempt, ClusterLoader._get_match_expression_filter.
  rewrite lower_is_exists, lower_is_doesnotexist. intros H ->.
  destruct (eq_nocase (operator e) "Exists"); [discriminate|].
  destruct (eq_nocase (operator e) "DoesNotExist"); [discriminate|reflexivity].
Qed.

Lemma filter_of_renderable (e : V1LabelSelectorRequirement) :
  (exempt e = false -> values e <> None) ->
  ClusterLoader._get_match_expression_filter e
  = Ok (expression_term (key e) (operator e) (values_or_empty e)).
Proof.
  intros H. destruct (exempt e) eqn:Ex; [now apply filter_of_exempt|].
  unfold values_or_empty. destruct (values e) as [vs|] eqn:Ev.
  - now apply filter_of_valued.
  - now destruct (H eq_refl).
Qed.

Lemma comprehension_renderable (es : list V1LabelSelectorRequirement) :
  (forall e, In e es -> exempt e = false -> values e <> None) ->
  comprehension ClusterLoader._get_match_expression_filter es
  = Ok (map (fun e => expression_term (key e) (operator e) (values_or_empty e)) es).
Proof.
  induction es as [|e es IH]; intros H; simpl; [reflexivity|].
  rewrite filter_of_renderable by (apply H; now left). simpl.
  rewrite IH by (intros e' He'; apply H; now right). reflexivity.
Qed.

Lemma comprehension_bare (es : list V1LabelSelectorRequirement)
      (e : V1LabelSelectorRequirement) :
  In e es -> exempt e = false -> values e = None ->
  exists exc, comprehension ClusterLoader._get_match_expression_filter es = Raise exc.
Proof.
  intros Hin Hex Hv. induction es as [|e0 es IH]; [destruct Hin|].
  simpl. destruct Hin as [->|Hin].
  - rewrite filter_of_bare by assumption. simpl. eauto.
  - destruct (ClusterLoader._get_match_expression_filter e0) as [y|exc]; simpl; [|eauto].
    destruct (IH Hin) as [exc ->]. simpl. eauto.
Qed.

Lemma builder_never_None (selector : option V1LabelSelector) :
  (exists q, ClusterLoader._build_selector_query selector = Ok (Some q)) \/
  (exists e, ClusterLoader._build_selector_query selector = Raise e).
Proof.
  unfold ClusterLoader._build_selector_query.
  destruct selector as [s|]; [|right; eauto].
  destruct (match_labels s) as [labels|]; [|right; eauto].
  destruct (match_expressions s) as [es|]; [|left; eauto].
  destruct (comprehension ClusterLoader._get_match_expression_filter es);
    simpl; [left|right]; eauto.
Qed.

Lemma builder_malformed (s : V1LabelSelector) :
  malformed s -> exists e, ClusterLoader._build_selector_query (Some s) = Raise e.
Proof.
  unfold malformed, expressions_of, ClusterLoader._build_selector_query.
  intros [->|[e [Hin [Hex Hv]]]]; [eauto|].
  destruct (match_labels s) as [labels|]; [|eauto].
  destruct (match_expressions s) as [es|]; [|destruct Hin].
  destruct (comprehension_bare es e Hin Hex Hv) as [exc ->]. simpl. eauto.
Qed.

(** ** Lemmas on one cluster *)

Lemma build_obj_Ok (self : ClusterLoader.t) (item : K8sItem) (c : V1Container)
      (obj : K8sObjectData) :
  ClusterLoader.__build_obj self item c = Ok obj -> obj = record_of self item c.
Proof.
  unfold ClusterLoader.__build_obj, record_of, pod_names.
  destruct (snd (ClusterLoader.__list_pods self item)) as [ps|e]; simpl;
    [|discriminate].
  intros H. injection H as <-. reflexivity.
Qed.

Lemma build_tasks_Ok (self : ClusterLoader.t) (items : list K8sItem)
      (objs : list K8sObjectData) :
  gather (build_tasks self items) = Ok objs -> objs = records_of self items.
Proof.
  unfold build_tasks, records_of.
  rewrite (flat_map_pairs (ClusterLoader.__build_obj self)).
  rewrite (flat_map_pairs (record_of self)).
  apply gather_map_inv. intros [item c] obj. apply build_obj_Ok.
Qed.

Lemma build_tasks_Raise (self : ClusterLoader.t) (items : list K8sItem)
      (item : K8sItem) (c : V1Container) (e : PyExc) :
  In item items -> In c (w_containers (body item)) ->
  ClusterLoader.__build_obj self item c = Raise e ->
  exists e', gather (build_tasks self items) = Raise e'.
Proof.
  intros Hi Hc He. apply (gather_Raise _ e).
  unfold build_tasks. apply in_flat_map. exists item. split; [assumption|].
  rewrite <- He. apply in_map_iff. exists c. now split.
Qed.

Lemma kind_listing_unfold (k : Kind) (self : ClusterLoader.t) :
  kind_listing k self
  = (ret <- api_listing k (ClusterLoader.self_api self) ;;
     gather (build_tasks self (map (wrap k) ret))).
Proof. destruct k; reflexivity. Qed.

Lemma kind_listing_Ok (k : Kind) (self : ClusterLoader.t)
      (objs : list K8sObjectData) :
  kind_listing k self = Ok objs ->
  exists ws, api_listing k (ClusterLoader.self_api self) = Ok ws /\
             objs = records_of self (map (wrap k) ws).
Proof.
  rewrite kind_listing_unfold.
  destruct (api_listing k (ClusterLoader.self_api self)) as [ws|e]; simpl;
    [|discriminate].
  intros H. exists ws. split; [reflexivity|now apply build_tasks_Ok].
Qed.

Lemma listed_items_are (api : ClusterApi) :
  listed_items api
  = flat_map (fun k => items_of (wrap k) (api_listing k api))
             [Deployment; StatefulSet; DaemonSet; Job].
Proof. unfold listed_items. simpl. now rewrite app_nil_r. Qed.

(** A scan whose four listings return: what the listings hold. *)
Lemma kind_listings_Ok (self : ClusterLoader.t)
      (objects_tuple : list (list K8sObjectData)) :
  gather (ClusterLoader.kind_listings self) = Ok objects_tuple ->
  exists ds ss dms js,
    list_deployment_for_all_namespaces (ClusterLoader.self_api self) = Ok ds /\
    list_stateful_set_for_all_namespaces (ClusterLoader.self_api self) = Ok ss /\
    list_daemon_set_for_all_namespaces (ClusterLoader.self_api self) = Ok dms /\
    list_job_for_all_namespaces (ClusterLoader.self_api self) = Ok js /\
    objects_tuple = [ records_of self (map V1Deployment ds);
                      records_of self (map V1StatefulSet ss);
                      records_of self (map V1DaemonSet dms);
                      records_of self (map V1Job js) ].
Proof.
  intros H. apply gather_Ok_inv in H.
  destruct objects_tuple as [|o1 [|o2 [|o3 [|o4 [|o5 rest]]]]]; try discriminate.
  unfold ClusterLoader.kind_listings in H. simpl in H.
  injection H as H1 H2 H3 H4.
  destruct (kind_listing_Ok Deployment self o1 H1) as [ds [E1 ->]].
  destruct (kind_listing_Ok StatefulSet self o2 H2) as [ss [E2 ->]].
  destruct (kind_listing_Ok DaemonSet self o3 H3) as [dms [E3 ->]].
  destruct (kind_listing_Ok Job self o4 H4) as [js [E4 ->]].
  exists ds, ss, dms, js. simpl in *. repeat split; assumption.
Qed.

Lemma scan_unfold_Ok (self : ClusterLoader.t)
      (objects_tuple : list (list K8sObjectData)) :
  gather (ClusterLoader.kind_listings self) = Ok objects_tuple ->
  ClusterLoader.list_scannable_objects self
  = filter (keptb (ClusterLoader.self_config self)) (concat objects_tuple).
Proof.
  intros H. unfold ClusterLoader.list_scannable_objects, keptb. rewrite H.
  destruct (namespaces (ClusterLoader.self_config self)); reflexivity.
Qed.

Lemma keptb_kept (config : Config) (obj : K8sObjectData) :
  keptb config obj = true <-> kept config obj.
Proof.
  unfold keptb, kept. destruct (namespaces config) as [|l].
  - rewrite negb_true_iff. split.
    + intros H E. apply String.eqb_eq in E. congruence.
    + intros H. apply String.eqb_neq. assumption.
  - apply py_in_In.
Qed.

Lemma scan_Raise (self : ClusterLoader.t) (e : PyExc) :
  gather (ClusterLoader.kind_listings self) = Raise e ->
  ClusterLoader.list_scannable_objects self = [].
Proof.
  intros H. unfold ClusterLoader.list_scannable_objects. now rewrite H.
Qed.

Lemma listed_item_kind (api : ClusterApi) (item : K8sItem) :
  In item (listed_items api) ->
  exists k ws, api_listing k api = Ok ws /\ In item (map (wrap k) ws).
Proof.
  rewrite listed_items_are. intros H. apply in_flat_map in H.
  destruct H as [k [_ H]]. exists k.
  unfold items_of in H. destruct (api_listing k api) as [ws|e]; [|destruct H].
  now exists ws.
Qed.

Lemma kind_listing_in (k : Kind) (self : ClusterLoader.t) :
  In (kind_listing k self) (ClusterLoader.kind_listings self).
Proof. unfold ClusterLoader.kind_listings. destruct k; simpl; tauto. Qed.

Lemma fails_scan_empty (self : ClusterLoader.t) :
  fails self -> ClusterLoader.list_scannable_objects self = [].
Proof.
  intros [[e He]|[item [c [e [Hi [Hc He]]]]]].
  - destruct (gather_Raise _ e He) as [e' H]. now apply (scan_Raise self e').
  - destruct (listed_item_kind _ item Hi) as [k [ws [Hk Hw]]].
    destruct (build_tasks_Raise self _ item c e Hw Hc He) as [e' H'].
    assert (Hr : kind_listing k self = Raise e').
    { rewrite kind_listing_unfold, Hk. exact H'. }
    destruct (gather_Raise (ClusterLoader.kind_listings self) e') as [e'' H''].
    { rewrite <- Hr. apply kind_listing_in. }
    now apply (scan_Raise self e'').
Qed.

Lemma raises_on_every_call_fails (self : ClusterLoader.t) :
  raises_on_every_call (ClusterLoader.self_api self) -> fails self.
Proof.
  intros [[e He] _]. left. exists e. left.
  unfold ClusterLoader._list_deployments. now rewrite He.
Qed.

(** ** Runs on the sample world *)

Example kind_of_a_job : slice_from_2 (class_name (V1Job Sample.migrate)) = "Job".
Proof. reflexivity. Qed.

Example render_mixed :
  ClusterLoader._build_selector_query (Some Sample.mixed)
  = Ok (Some "app=web,env=prod,tier In (a,b),canary,!legacy,zone notin (z1)").
Proof. reflexivity. Qed.

Example render_without_labels :
  ClusterLoader._build_selector_query (Some Sample.by_expressions)
  = Raise (AttributeError "'NoneType' object has no attribute 'items'").
Proof. reflexivity. Qed.

Example render_without_values :
  ClusterLoader._build_selector_query (Some Sample.no_values)
  = Raise (TypeError "can only join an iterable").
Proof. reflexivity. Qed.

Example scan_prod_everything :
  map (fun o => (namespace o, name o, kind o, container o, length (pods o)))
      (ClusterLoader.list_scannable_objects (Sample.loader "prod" Sample.everything))
  = [ ("default", "web", "Deployment", "app", 3);
      ("default", "web", "Deployment", "sidecar", 3);
      ("data", "db", "StatefulSet", "app", 0);
      ("default", "agent", "DaemonSet", "sidecar", 0);
      ("data", "migrate", "Job", "app", 0) ].
Proof. reflexivity. Qed.

Example scan_prod_listed_namespaces :
  map (fun o => (namespace o, name o, kind o))
      (ClusterLoader.list_scannable_objects
         (Sample.loader "prod" (Sample.only ["kube-system"; "data"] ClAll)))
  = [ ("kube-system", "coredns", "Deployment");
      ("data", "db", "StatefulSet");
      ("data", "migrate", "Job") ].
Proof. reflexivity. Qed.

Example web_allocations :
  from_container Sample.app
  = {| requests := {| cpu := Some "100m"; memory := Some "128Mi" |};
       limits := Sample.nothing |}.
Proof. reflexivity. Qed.

Example resolve_all :
  KubernetesLoader.list_clusters Sample.kube Sample.everything
  = Ok (Some ["prod"; "staging"; "down"]).
Proof. reflexivity. Qed.

Example resolve_listed :
  KubernetesLoader.list_clusters
    Sample.kube (Sample.only [] (ClList ["down"; "ghost"; "prod"]))
  = Ok (Some ["prod"; "down"]).
Proof. reflexivity. Qed.

Example resolve_unset :
  KubernetesLoader.list_clusters Sample.kube (Sample.only [] ClNone)
  = Ok (Some ["staging"]) /\
  KubernetesLoader.list_clusters Sample.kube (Sample.only [] (ClList []))
  = Ok (Some ["staging"]).
Proof. split; reflexivity. Qed.

Example resolve_inside :
  KubernetesLoader.list_clusters Sample.no_store Sample.in_cluster = Ok None.
Proof. reflexivity. Qed.

Example resolve_without_store :
  KubernetesLoader.list_clusters Sample.no_store Sample.everything
  = Raise (ConfigException "no kube-config").
Proof. reflexivity. Qed.

Example scan_inside :
  KubernetesLoader.list_scannable_objects Sample.kube Sample.in_cluster None
  = Ok (ClusterLoader.list_scannable_objects (Sample.ambient Sample.in_cluster)).
Proof. reflexivity. Qed.

Example init_of_a_usable_name :
  ClusterLoader.init Sample.kube (Some "staging") Sample.everything
  = Ok (Sample.loader "staging" Sample.everything).
Proof. reflexivity. Qed.

Example init_of_an_unusable_name :
  ClusterLoader.init Sample.kube (Some "ghost") Sample.everything
  = Raise (ConfigException "Invalid kube-config file").
Proof. reflexivity. Qed.

Example scan_with_an_unusable_name :
  KubernetesLoader.list_scannable_objects
    Sample.kube Sample.everything (Some ["prod"; "ghost"])
  = Raise (ConfigException "Invalid kube-config file").
Proof. reflexivity. Qed.

Example no_container_no_task :
  map (fun o => (name o, container o))
      (ClusterLoader.list_scannable_objects
         (Sample.loader "harmless" Sample.everything))
  = [("web", "app"); ("web", "sidecar")].
Proof. reflexivity. Qed.

(** ** The selector builder and pod correlation *)

(** C1.  A selector without labels and expressions is meant to yield [None]
    and to cost no pod-list call.  The builder never returns [None]: it
    answers a string or raises, the empty selector renders as the empty
    string, and [__list_pods] sends the query with that empty label
    selector, which the sample cluster answers with every pod of the
    namespace. *)
Theorem C1_empty_selector_is_queried :
  (forall selector,
      (exists q, ClusterLoader._build_selector_query selector = Ok (Some q)) \/
      (exists e, ClusterLoader._build_selector_query selector = Raise e)) /\
  ClusterLoader._build_selector_query
    (Some {| match_labels := Some []; match_expressions := None |}) = Ok (Some "") /\
  ClusterLoader._build_selector_query
    (Some {| match_labels := Some []; match_expressions := Some [] |}) = Ok (Some "") /\
  ClusterLoader.__list_pods (Sample.loader "prod" Sample.everything)
                            (V1Deployment Sample.unscoped)
  = ([ListNamespacedPod "default" ""], Ok ["web-2"; "web-0"; "web-1"; "agent-x"]).
Proof.
  split; [exact builder_never_None|].
  repeat split; reflexivity.
Qed.

(** A selector whose match-labels are present, and whose expressions
    other than Exists and DoesNotExist carry values, renders as the comma-joined
    list of its label terms [k=v] followed by its expression terms: the bare
    key for Exists, [!key] for DoesNotExist, both matched without regard to
    case, and [key op (v1,v2,...)] with the operator as written otherwise. *)
Lemma selector_rendering (selector : V1LabelSelector)
        (labels : list (string * string)) :
  match_labels selector = Some labels ->
  (forall e, In e (expressions_of selector) -> exempt e = false -> values e <> None) ->
  ClusterLoader._build_selector_query (Some selector)
  = Ok (Some (join ","
                (map label_term labels
                 ++ map (fun e => expression_term (key e) (operator e) (values_or_empty e))
                        (expressions_of selector))%list)).
Proof.
  intros Hl He. unfold ClusterLoader._build_selector_query, expressions_of in *.
  rewrite Hl. destruct (match_expressions selector) as [es|].
  - rewrite (comprehension_renderable es He). reflexivity.
  - simpl. now rewrite app_nil_r.
Qed.

Lemma selector_rendering_on_mixed :
  ClusterLoader._build_selector_query (Some Sample.mixed)
  = Ok (Some "app=web,env=prod,tier In (a,b),canary,!legacy,zone notin (z1)").
Proof.
  refine (selector_rendering Sample.mixed [("app", "web"); ("env", "prod")]
                                eq_refl _).
  simpl. intros e [<-|[<-|[<-|[<-|[]]]]]; simpl; intros; discriminate.
Defined.

(** C2.  Every selector should render, its label terms before its
    expression terms.  A selector by expressions alone, whose match-labels
    the client reads as [None], does not: the builder guards the absent
    expressions but not the absent labels and raises, where the same
    selector with an empty mapping renders the query its terms make. *)
Theorem C2_absent_labels_are_not_rendered :
  ClusterLoader._build_selector_query (Some Sample.by_expressions)
  = Raise (AttributeError "'NoneType' object has no attribute 'items'") /\
  join "," (map (fun e => expression_term (key e) (operator e) (values_or_empty e))
                (expressions_of Sample.by_expressions))
  = "tier In (a,b)" /\
  ClusterLoader._build_selector_query
    (Some {| match_labels := Some [];
             match_expressions := match_expressions Sample.by_expressions |})
  = Ok (Some "tier In (a,b)") /\
  ClusterLoader._build_selector_query
    (Some {| match_labels := Some [("app", "web")]; match_expressions := None |})
  = Ok (Some "app=web").
Proof. repeat split; reflexivity. Qed.

(** C8.  When the selector of a workload renders to a query, [__list_pods]
    sends exactly one request, the pod listing of the workload's namespace
    with that query, and returns the names of the answered pods in the
    order of the answer; a failure of the request is passed on. *)
Theorem C8_pod_correlation (self : ClusterLoader.t) (item : K8sItem) (q : string) :
  ClusterLoader._build_selector_query (w_selector (body item)) = Ok (Some q) ->
  fst (ClusterLoader.__list_pods self item)
  = [ListNamespacedPod (w_namespace (body item)) q] /\
  match list_namespaced_pod (ClusterLoader.self_api self) (w_namespace (body item)) q with
  | Ok answered => snd (ClusterLoader.__list_pods self item) = Ok (map p_name answered)
  | Raise e => snd (ClusterLoader.__list_pods self item) = Raise e
  end.
Proof.
  intros H. unfold ClusterLoader.__list_pods. rewrite H. simpl.
  split; [reflexivity|].
  destruct (list_namespaced_pod _ _ q); reflexivity.
Qed.

Lemma C8_pod_correlation_witness :
  fst (ClusterLoader.__list_pods (Sample.loader "prod" Sample.everything)
                                 (V1Deployment Sample.web))
  = [ListNamespacedPod "default" "app=web"] /\
  snd (ClusterLoader.__list_pods (Sample.loader "prod" Sample.everything)
                                 (V1Deployment Sample.web))
  = Ok ["web-2"; "web-0"; "web-1"].
Proof.
  exact (C8_pod_correlation (Sample.loader "prod" Sample.everything)
                            (V1Deployment Sample.web) "app=web" eq_refl).
Defined.

(** ** One cluster *)

(** C3.  When the four listings return, the result of the cluster is the
    discovered records that pass the namespace policy, in their order and
    number: under the wildcard those whose namespace is not kube-system,
    under a list those whose namespace is in the list. *)
Theorem C3_namespace_policy (self : ClusterLoader.t)
        (objects_tuple : list (list K8sObjectData)) :
  gather (ClusterLoader.kind_listings self) = Ok objects_tuple ->
  ClusterLoader.list_scannable_objects self
  = filter (keptb (ClusterLoader.self_config self)) (concat objects_tuple) /\
  forall obj,
    In obj (ClusterLoader.list_scannable_objects self) <->
    In obj (concat objects_tuple) /\ kept (ClusterLoader.self_config self) obj.
Proof.
  intros H. rewrite (scan_unfold_Ok self objects_tuple H).
  split; [reflexivity|].
  intros obj. rewrite filter_In, keptb_kept. reflexivity.
Qed.

Lemma C3_namespace_policy_witness :
  gather (ClusterLoader.kind_listings (Sample.loader "prod" Sample.everything))
  = Ok Sample.prod_tuple /\
  ClusterLoader.list_scannable_objects (Sample.loader "prod" Sample.everything)
  = filter (keptb Sample.everything) (concat Sample.prod_tuple).
Proof.
  split; [reflexivity|].
  exact (proj1 (C3_namespace_policy (Sample.loader "prod" Sample.everything)
                                    Sample.prod_tuple eq_refl)).
Defined.



(** C10.  When the four listings return, the result of the cluster is the
    filtered sequence of the Deployment records, then the StatefulSet, the
    DaemonSet and the Job records, each kind in the order of the listed
    workloads and, within a workload, of its containers. *)
Theorem C10_emission_order (self : ClusterLoader.t)
        (objects_tuple : list (list K8sObjectData)) :
  gather (ClusterLoader.kind_listings self) = Ok objects_tuple ->
  exists ds ss dms js,
    list_deployment_for_all_namespaces (ClusterLoader.self_api self) = Ok ds /\
    list_stateful_set_for_all_namespaces (ClusterLoader.self_api self) = Ok ss /\
    list_daemon_set_for_all_namespaces (ClusterLoader.self_api self) = Ok dms /\
    list_job_for_all_namespaces (ClusterLoader.self_api self) = Ok js /\
    ClusterLoader.list_scannable_objects self
    = filter (keptb (ClusterLoader.self_config self))
             (records_of self (map V1Deployment ds)
              ++ records_of self (map V1StatefulSet ss)
              ++ records_of self (map V1DaemonSet dms)
              ++ records_of self (map V1Job js))%list.
Proof.
  intros H. rewrite (scan_unfold_Ok self objects_tuple H).
  destruct (kind_listings_Ok self objects_tuple H)
    as [ds [ss [dms [js [E1 [E2 [E3 [E4 ->]]]]]]]].
  exists ds, ss, dms, js. repeat (split; [assumption|]).
  simpl. now rewrite app_nil_r.
Qed.

Lemma C10_emission_order_witness :
  exists ds ss dms js,
    list_deployment_for_all_namespaces Sample.prod = Ok ds /\
    list_stateful_set_for_all_namespaces Sample.prod = Ok ss /\
    list_daemon_set_for_all_namespaces Sample.prod = Ok dms /\
    list_job_for_all_namespaces Sample.prod = Ok js /\
    ClusterLoader.list_scannable_objects (Sample.loader "prod" Sample.everything)
    = filter (keptb Sample.everything)
             (records_of (Sample.loader "prod" Sample.everything) (map V1Deployment ds)
              ++ records_of (Sample.loader "prod" Sample.everything) (map V1StatefulSet ss)
              ++ records_of (Sample.loader "prod" Sample.everything) (map V1DaemonSet dms)
              ++ records_of (Sample.loader "prod" Sample.everything) (map V1Job js))%list.
Proof.
  exact (C10_emission_order (Sample.loader "prod" Sample.everything)
                            Sample.prod_tuple eq_refl).
Defined.

(** C9.  A listed workload that has a container and a malformed selector
    (absent match-labels, or an expression other than Exists and
    DoesNotExist without values) makes the builder raise, the build task of
    the container raise, and the cluster contribute nothing. *)
Theorem C9_malformed_selector_empties_cluster (self : ClusterLoader.t)
        (item : K8sItem) (selector : V1LabelSelector) (c : V1Container) :
  In item (listed_items (ClusterLoader.self_api self)) ->
  In c (w_containers (body item)) ->
  w_selector (body item) = Some selector ->
  malformed selector ->
  (exists e, ClusterLoader._build_selector_query (Some selector) = Raise e) /\
  (exists e, ClusterLoader.__build_obj self item c = Raise e) /\
  ClusterLoader.list_scannable_objects self = [].
Proof.
  intros Hi Hc Hs Hm. destruct (builder_malformed selector Hm) as [e He].
  assert (Hb : ClusterLoader.__build_obj self item c = Raise e).
  { unfold ClusterLoader.__build_obj, ClusterLoader.__list_pods.
    rewrite Hs, He. reflexivity. }
  split; [now exists e|]. split; [now exists e|].
  apply fails_scan_empty. right. exists item, c, e. auto.
Qed.

Lemma C9_malformed_selector_empties_cluster_witness :
  (exists e, ClusterLoader._build_selector_query (Some Sample.by_expressions) = Raise e) /\
  (exists e, ClusterLoader.__build_obj (Sample.loader "tainted" Sample.everything)
                                       (V1Deployment Sample.odd) Sample.app = Raise e) /\
  ClusterLoader.list_scannable_objects (Sample.loader "tainted" Sample.everything) = [].
Proof.
  refine (C9_malformed_selector_empties_cluster
            (Sample.loader "tainted" Sample.everything)
            (V1Deployment Sample.odd) Sample.by_expressions Sample.app
            _ _ eq_refl _).
  - simpl. right. left. reflexivity.
  - simpl. left. reflexivity.
  - left. reflexivity.
Defined.

(** ** Lemmas on the loaders of a scan *)

Lemma init_named (kube : Kube) (config : Config) (c : string) (api : ClusterApi) :
  new_client_from_config kube c = Ok api ->
  ClusterLoader.init kube (Some c) config
  = Ok {| ClusterLoader.self_cluster := Some c;
          ClusterLoader.self_config := config;
          ClusterLoader.self_api := api |}.
Proof. intros H. unfold ClusterLoader.init. now rewrite H. Qed.

Lemma init_Ok_inv (kube : Kube) (cluster : option string) (config : Config)
      (self : ClusterLoader.t) :
  ClusterLoader.init kube cluster config = Ok self ->
  ClusterLoader.self_cluster self = cluster /\
  ClusterLoader.self_config self = config /\
  match cluster with
  | Some c => new_client_from_config kube c = Ok (ClusterLoader.self_api self)
  | None => ClusterLoader.self_api self = default_client kube
  end.
Proof.
  unfold ClusterLoader.init. destruct cluster as [c|]; simpl.
  - destruct (new_client_from_config kube c) as [api|e]; simpl; [|discriminate].
    intros H. injection H as <-. auto.
  - intros H. injection H as <-. auto.
Qed.

Lemma comprehension_total {A B : Type} (f : A -> Result B) (g : A -> B)
      (xs : list A) :
  (forall x, In x xs -> f x = Ok (g x)) ->
  comprehension f xs = Ok (map g xs).
Proof.
  induction xs as [|x xs IH]; intros H; simpl; [reflexivity|].
  rewrite (H x (or_introl eq_refl)). simpl.
  rewrite IH by (intros y Hy; apply H; now right). reflexivity.
Qed.

Lemma comprehension_app {A B : Type} (f : A -> Result B) (xs ys : list A) :
  comprehension f (xs ++ ys)%list
  = (l1 <- comprehension f xs ;;
     l2 <- comprehension f ys ;;
     Ok (l1 ++ l2)%list).
Proof.
  induction xs as [|x xs IH]; simpl.
  - destruct (comprehension f ys); reflexivity.
  - destruct (f x) as [y|e]; simpl; [|reflexivity]. rewrite IH.
    destruct (comprehension f xs) as [l1|e]; simpl; [|reflexivity].
    destruct (comprehension f ys) as [l2|e]; reflexivity.
Qed.

Lemma loaders_named (kube : Kube) (config : Config) (names : list string)
      (clients : string -> ClusterApi) :
  (forall c, In c names -> new_client_from_config kube c = Ok (clients c)) ->
  KubernetesLoader.cluster_loaders kube config (Some names)
  = Ok (map (loader_of config clients) names).
Proof.
  intros H. unfold KubernetesLoader.cluster_loaders.
  apply comprehension_total. intros c Hc. now apply init_named, H.
Qed.

Lemma orchestrator_built (kube : Kube) (config : Config)
      (clusters : option (list string)) (loaders : list ClusterLoader.t) :
  KubernetesLoader.cluster_loaders kube config clusters = Ok loaders ->
  KubernetesLoader.list_scannable_objects kube config clusters
  = Ok (flat_map ClusterLoader.list_scannable_objects loaders).
Proof.
  intros H. unfold KubernetesLoader.list_scannable_objects. rewrite H. simpl.
  rewrite gather_total. simpl. now rewrite flat_map_concat_map.
Qed.

Lemma orchestrator_named (kube : Kube) (config : Config) (names : list string)
      (clients : string -> ClusterApi) :
  (forall c, In c names -> new_client_from_config kube c = Ok (clients c)) ->
  KubernetesLoader.list_scannable_objects kube config (Some names)
  = Ok (flat_map (fun c => ClusterLoader.list_scannable_objects
                             (loader_of config clients c))
                 names).
Proof.
  intros H. rewrite (orchestrator_built _ _ _ _ (loaders_named _ config _ _ H)).
  f_equal. rewrite !flat_map_concat_map, map_map. reflexivity.
Qed.

(** C4.  A cluster one of whose kind listings or object-build tasks raises
    returns the empty list; and when the client of every named cluster can
    be built, a scan over the clusters returns, without raising, the
    concatenated results of the clusters that did not fail. *)
Theorem C4_fail_soft (self : ClusterLoader.t) (kube : Kube) (config : Config)
        (names : list string) (bad : string -> bool)
        (clients : string -> ClusterApi) :
  fails self ->
  (forall c, In c names -> new_client_from_config kube c = Ok (clients c)) ->
  (forall c, In c names -> bad c = true ->
             raises_on_every_call (clients c) \/
             fails (loader_of config clients c)) ->
  ClusterLoader.list_scannable_objects self = [] /\
  KubernetesLoader.list_scannable_objects kube config (Some names)
  = Ok (flat_map (fun c => ClusterLoader.list_scannable_objects
                             (loader_of config clients c))
                 (filter (fun c => negb (bad c)) names)).
Proof.
  intros Hself Hbuilt Hbad. split; [now apply fails_scan_empty|].
  assert (Hfail : forall c, In c names -> bad c = true ->
                            fails (loader_of config clients c)).
  { intros c Hc Hb. destruct (Hbad c Hc Hb) as [H|H]; [|exact H].
    now apply raises_on_every_call_fails. }
  rewrite (orchestrator_named kube config names clients Hbuilt). f_equal.
  clear Hbuilt Hbad.
  induction names as [|c names IH]; simpl; [reflexivity|].
  rewrite IH by (intros c' Hc'; apply Hfail; now right).
  destruct (bad c) eqn:Eb; simpl; [|reflexivity].
  rewrite (fails_scan_empty _ (Hfail c (or_introl eq_refl) Eb)). reflexivity.
Qed.

Lemma C4_fail_soft_witness :
  ClusterLoader.list_scannable_objects (Sample.loader "forbidden" Sample.everything) = [] /\
  KubernetesLoader.list_scannable_objects
    Sample.kube Sample.everything (Some ["prod"; "down"; "staging"])
  = Ok (ClusterLoader.list_scannable_objects (Sample.loader "prod" Sample.everything)
        ++ ClusterLoader.list_scannable_objects (Sample.loader "staging" Sample.everything))%list.
Proof.
  refine (eq_ind _ (fun r => _ /\ _ = Ok r)
            (C4_fail_soft (Sample.loader "forbidden" Sample.everything)
               Sample.kube Sample.everything ["prod"; "down"; "staging"]
               (fun c => c =? "down") Sample.api_of _ _ _) _ _).
  - right. exists (V1Deployment Sample.web), Sample.app, (ApiException "403").
    split; [left; reflexivity|]. split; [left; reflexivity|reflexivity].
  - intros c [<-|[<-|[<-|[]]]]; reflexivity.
  - intros c [<-|[<-|[<-|[]]]] Hb; try discriminate Hb.
    left. simpl. repeat split; eexists; reflexivity.
  - reflexivity.
Defined.

(** C4 without the clients: when a cluster is one whose client raises on
    every call because it cannot even be built, the scan raises and the
    healthy clusters contribute nothing. *)
Lemma C4_counterexample :
  ~ (forall (kube : Kube) (config : Config) (names : list string)
            (bad : string -> bool),
        (forall c, In c names -> bad c = true -> unusable kube c) ->
        exists loaders,
          Forall2 (fun c l => ClusterLoader.init kube (Some c) config = Ok l)
                  (filter (fun c => negb (bad c)) names) loaders /\
          KubernetesLoader.list_scannable_objects kube config (Some names)
          = Ok (flat_map ClusterLoader.list_scannable_objects loaders)).
Proof.
  intros H.
  destruct (H Sample.kube Sample.everything ["prod"; "ghost"]
              (fun c => c =? "ghost")) as [loaders [_ E]].
  - intros c [<-|[<-|[]]] Hb; [discriminate Hb|exact I].
  - discriminate E.
Qed.

(** ** The clusters of a scan *)

(** C5.  Inside a cluster the resolution answers [None] without reading
    the store.  Outside it reads the store, whose failure it passes on,
    and answers the current context alone for an unset or empty filter,
    every enumerated name for the wildcard, and for a list the enumerated
    names that are in it, in the order of the store; a listed name that is
    not enumerated does not appear. *)
Theorem C5_cluster_resolution (kube : Kube) (config : Config) :
  match inside_cluster config, list_kube_config_contexts kube with
  | true, _ => KubernetesLoader.list_clusters kube config = Ok None
  | false, Raise e => KubernetesLoader.list_clusters kube config = Raise e
  | false, Ok (contexts, current_context) =>
      match clusters config with
      | ClNone | ClList [] =>
          KubernetesLoader.list_clusters kube config
          = Ok (Some [ctx_name current_context])
      | ClAll =>
          KubernetesLoader.list_clusters kube config
          = Ok (Some (map ctx_name contexts))
      | ClList l =>
          exists resolved,
            KubernetesLoader.list_clusters kube config = Ok (Some resolved) /\
            resolved = filter (fun n => ClusterLoader.py_in n l) (map ctx_name contexts) /\
            forall n, In n resolved <-> In n (map ctx_name contexts) /\ In n l
      end
  end.
Proof.
  unfold KubernetesLoader.list_clusters.
  destruct (inside_cluster config); [reflexivity|].
  destruct (list_kube_config_contexts kube) as [[contexts current_context]|e];
    [|reflexivity].
  simpl. destruct (clusters config) as [| |[|x l]]; try reflexivity.
  eexists. split; [reflexivity|].
  assert (E : map ctx_name
                  (filter (fun context => ClusterLoader.py_in (ctx_name context) (x :: l))
                          contexts)
              = filter (fun n => ClusterLoader.py_in n (x :: l)) (map ctx_name contexts)).
  { induction contexts as [|c cs IH]; [reflexivity|].
    cbn [filter map]. destruct (ClusterLoader.py_in (ctx_name c) (x :: l));
      cbn [map]; now rewrite IH. }
  split; [exact E|].
  intros n. rewrite E, filter_In, py_in_In. reflexivity.
Qed.

(** C6.  For the sentinel one loader is built, bound to the ambient
    context, and building it cannot fail.  For a list of names whose
    loaders could all be built there is one loader per name, in order, each
    around the client of its name.  The value returned is then the
    concatenation of what the loaders return. *)
Theorem C6_orchestration (kube : Kube) (config : Config)
        (clusters : option (list string)) (loaders : list ClusterLoader.t) :
  KubernetesLoader.cluster_loaders kube config clusters = Ok loaders ->
  KubernetesLoader.cluster_loaders kube config None
  = Ok [ {| ClusterLoader.self_cluster := None;
            ClusterLoader.self_config := config;
            ClusterLoader.self_api := default_client kube |} ] /\
  match clusters with
  | None =>
      loaders = [ {| ClusterLoader.self_cluster := None;
                     ClusterLoader.self_config := config;
                     ClusterLoader.self_api := default_client kube |} ]
  | Some names =>
      length loaders = length names /\
      Forall2 (fun c l =>
                 ClusterLoader.self_cluster l = Some c /\
                 ClusterLoader.self_config l = config /\
                 new_client_from_config kube c = Ok (ClusterLoader.self_api l))
              names loaders
  end /\
  KubernetesLoader.list_scannable_objects kube config clusters
  = Ok (flat_map ClusterLoader.list_scannable_objects loaders).
Proof.
  intros H. split; [reflexivity|].
  split; [|now apply orchestrator_built].
  destruct clusters as [names|].
  - unfold KubernetesLoader.cluster_loaders in H.
    apply comprehension_Ok_inv in H. split.
    + symmetry. eapply Forall2_length. exact H.
    + induction H as [|c l names loaders Hl _ IH]; constructor; [|exact IH].
      apply init_Ok_inv in Hl. exact Hl.
  - simpl in H. injection H as <-. reflexivity.
Qed.

Lemma C6_orchestration_witness :
  KubernetesLoader.cluster_loaders Sample.kube Sample.everything None
  = Ok [Sample.ambient Sample.everything] /\
  (length [Sample.loader "staging" Sample.everything;
           Sample.loader "prod" Sample.everything]
   = length ["staging"; "prod"] /\
   Forall2 (fun c l =>
              ClusterLoader.self_cluster l = Some c /\
              ClusterLoader.self_config l = Sample.everything /\
              new_client_from_config Sample.kube c = Ok (ClusterLoader.self_api l))
           ["staging"; "prod"]
           [Sample.loader "staging" Sample.everything;
            Sample.loader "prod" Sample.everything]) /\
  KubernetesLoader.list_scannable_objects
    Sample.kube Sample.everything (Some ["staging"; "prod"])
  = Ok (flat_map ClusterLoader.list_scannable_objects
                 [Sample.loader "staging" Sample.everything;
                  Sample.loader "prod" Sample.everything]).
Proof.
  exact (C6_orchestration Sample.kube Sample.everything (Some ["staging"; "prod"])
                          [Sample.loader "staging" Sample.everything;
                           Sample.loader "prod" Sample.everything]
                          eq_refl).
Defined.

(** C6 for every input: a name whose client cannot be built leaves the
    scan without loaders and without a value. *)
Lemma C6_counterexample :
  ~ (forall (kube : Kube) (config : Config) (clusters : option (list string)),
        exists loaders,
          KubernetesLoader.cluster_loaders kube config clusters = Ok loaders /\
          match clusters with
          | None => length loaders = 1
          | Some names => length loaders = length names
          end /\
          KubernetesLoader.list_scannable_objects kube config clusters
          = Ok (flat_map ClusterLoader.list_scannable_objects loaders)).
Proof.
  intros H.
  destruct (H Sample.kube Sample.everything (Some ["prod"; "ghost"]))
    as [loaders [E _]].
  discriminate E.
Qed.

(** ** Further lemmas on the selector builder *)


Lemma string_app_empty (a b : string) : a ++ b = "" -> a = "" /\ b = "".
Proof. destruct a; simpl; [auto|discriminate]. Qed.


Lemma join_empty (l : list string) : join "," l = "" -> l = [] \/ l = [""].
Proof.
  destruct l as [|x [|y l]]; [now left|intros H; right; simpl in H; now subst|].
  intros H. change (x ++ "," ++ String.concat "," (y :: l) = "") in H.
  apply string_app_empty in H. destruct H as [_ H]. discriminate H.
Qed.

Lemma filter_Raise_inv (e : V1LabelSelectorRequirement) (exc : PyExc) :
  ClusterLoader._get_match_expression_filter e = Raise exc ->
  exempt e = false /\ values e = None /\
  exc = TypeError "can only join an iterable".
Proof.
  intros H. destruct (exempt e) eqn:Ex.
  - rewrite filter_of_exempt in H by assumption. discriminate.
  - destruct (values e) as [vs|] eqn:Ev.
    + rewrite (filter_of_valued e vs Ev) in H. discriminate.
    + rewrite filter_of_bare in H by assumption. injection H as <-. auto.
Qed.

Lemma filter_term_nonempty (e : V1LabelSelectorRequirement) (term : string) :
  ClusterLoader._get_match_expression_filter e = Ok term ->
  key e <> "" -> term <> "".
Proof.
  unfold ClusterLoader._get_match_expression_filter. intros H Hk.
  destruct (lower (operator e) =? "exists").
  - injection H as <-. assumption.
  - destruct (lower (operator e) =? "doesnotexist").
    + injection H as <-. discriminate.
    + destruct (values e) as [vs|]; [|discriminate].
      injection H as <-. intros E. apply string_app_empty in E. now destruct E.
Qed.

(** ** More on the selector builder and pod correlation *)

(** X1.  The builder raises exactly on the malformed selectors: an
    [AttributeError] when the match-labels are absent, the [TypeError] of
    the join otherwise. *)
Theorem X1_builder_raises_iff_malformed (selector : V1LabelSelector) :
  ((exists e, ClusterLoader._build_selector_query (Some selector) = Raise e)
   <-> malformed selector) /\
  forall e,
    ClusterLoader._build_selector_query (Some selector) = Raise e ->
    match match_labels selector with
    | None => e = AttributeError "'NoneType' object has no attribute 'items'"
    | Some _ => e = TypeError "can only join an iterable"
    end.
Proof.
  assert (Hinv : forall e,
             ClusterLoader._build_selector_query (Some selector) = Raise e ->
             match match_labels selector with
             | None => e = AttributeError "'NoneType' object has no attribute 'items'"
             | Some _ => e = TypeError "can only join an iterable" /\
                         exists x, In x (expressions_of selector) /\
                                   exempt x = false /\ values x = None
             end).
  { intros e. unfold ClusterLoader._build_selector_query, expressions_of.
    destruct (match_labels selector) as [labels|].
    - destruct (match_expressions selector) as [es|]; [|discriminate].
      destruct (comprehension ClusterLoader._get_match_expression_filter es)
        as [more|exc] eqn:Ec; simpl; [discriminate|].
      intros H. injection H as <-.
      destruct (comprehension_Raise_inv _ es exc Ec) as [x [Hin Hx]].
      destruct (filter_Raise_inv x exc Hx) as [H1 [H2 H3]].
      split; [assumption|]. exists x. auto.
    - intros H. injection H as <-. reflexivity. }
  split; [split|].
  - intros [e He]. specialize (Hinv e He). unfold malformed.
    destruct (match_labels selector); [right; apply Hinv|now left].
  - apply builder_malformed.
  - intros e He. specialize (Hinv e He).
    destruct (match_labels selector); [apply Hinv|exact Hinv].
Qed.

(** X2.  For Exists and DoesNotExist the values of an expression are never
    read: whatever they are, absent included, the term is the same. *)
Theorem X2_exempt_ignores_values (e : V1LabelSelectorRequirement)
        (vs : option (list string)) :
  exempt e = true ->
  ClusterLoader._get_match_expression_filter
    {| key := key e; operator := operator e; values := vs |}
  = ClusterLoader._get_match_expression_filter e.
Proof.
  intros H. rewrite (filter_of_exempt e H).
  rewrite filter_of_exempt by exact H. unfold expression_term.
  simpl. unfold exempt in H.
  destruct (eq_nocase (operator e) "Exists"); [reflexivity|].
  destruct (eq_nocase (operator e) "DoesNotExist"); [reflexivity|discriminate].
Qed.

Lemma X2_exempt_ignores_values_witness :
  ClusterLoader._get_match_expression_filter
    {| key := "canary"; operator := "Exists"; values := None |}
  = ClusterLoader._get_match_expression_filter Sample.canary.
Proof. exact (X2_exempt_ignores_values Sample.canary None eq_refl). Defined.



(** X4.  When no expression has an empty key, the builder answers the
    empty query, the one that selects every pod of a namespace, exactly for
    the selectors with no label and no expression. *)
Theorem X4_empty_query_iff_unconstrained (selector : V1LabelSelector) :
  (forall e, In e (expressions_of selector) -> key e <> "") ->
  (ClusterLoader._build_selector_query (Some selector) = Ok (Some "")
   <-> match_labels selector = Some [] /\ expressions_of selector = []).
Proof.
  intros Hk. unfold ClusterLoader._build_selector_query, expressions_of in *.
  destruct (match_labels selector) as [labels|]; [|split; [discriminate|intros [H _]; discriminate]].
  split.
  - assert (Hlab : forall q, join "," (map (fun label => fst label ++ "=" ++ snd label) labels) = q ->
                             q = "" -> labels = []).
    { intros q Hq ->. apply join_empty in Hq.
      destruct labels as [|[k v] labels]; [reflexivity|].
      destruct Hq as [Hq|Hq]; [discriminate|].
      injection Hq as Hq _. apply string_app_empty in Hq.
      destruct Hq as [_ Hq]. discriminate. }
    destruct (match_expressions selector) as [es|].
    + destruct (comprehension ClusterLoader._get_match_expression_filter es)
        as [more|exc] eqn:Ec; simpl; [|discriminate].
      intros H. injection H as H. apply join_empty in H.
      apply comprehension_Ok_inv in Ec.
      destruct Ec as [|e term es more He Hrest].
      * rewrite app_nil_r in H.
        destruct labels as [|[k v] labels]; [auto|].
        destruct H as [H|H]; [discriminate|].
        injection H as H _. apply string_app_empty in H.
        destruct H as [_ H]. discriminate.
      * exfalso. assert (Hne : term <> "").
        { apply (filter_term_nonempty e term He). apply Hk. now left. }
        destruct labels as [|[k v] labels].
        -- destruct H as [H|H]; [discriminate|]. injection H as H _. auto.
        -- destruct H as [H|H]; [discriminate|].
           injection H as H _. apply string_app_empty in H.
           destruct H as [_ H]. discriminate.
    + intros H. injection H as H. split; [|reflexivity].
      f_equal. now apply (Hlab "").
  - intros [H1 H2]. injection H1 as ->.
    destruct (match_expressions selector) as [es|]; [|reflexivity].
    subst es. reflexivity.
Qed.

Lemma X4_empty_query_iff_unconstrained_witness :
  ClusterLoader._build_selector_query (Some Sample.mixed) = Ok (Some "")
  <-> match_labels Sample.mixed = Some [] /\ expressions_of Sample.mixed = [].
Proof.
  refine (X4_empty_query_iff_unconstrained Sample.mixed _).
  simpl. intros e [<-|[<-|[<-|[<-|[]]]]]; discriminate.
Defined.

(** X5.  Pod correlation sends at most one request, always for the
    namespace of the workload, and a list of names it returns is always the
    answer to a request it sent: it never returns without asking. *)
Theorem X5_correlation_always_asks (self : ClusterLoader.t) (item : K8sItem) :
  length (fst (ClusterLoader.__list_pods self item)) <= 1 /\
  (forall ns q,
      In (ListNamespacedPod ns q) (fst (ClusterLoader.__list_pods self item)) ->
      ns = w_namespace (body item) /\
      ClusterLoader._build_selector_query (w_selector (body item)) = Ok (Some q)) /\
  (forall names,
      snd (ClusterLoader.__list_pods self item) = Ok names ->
      exists q answered,
        fst (ClusterLoader.__list_pods self item)
        = [ListNamespacedPod (w_namespace (body item)) q] /\
        list_namespaced_pod (ClusterLoader.self_api self)
                            (w_namespace (body item)) q = Ok answered /\
        names = map p_name answered).
Proof.
  unfold ClusterLoader.__list_pods.
  destruct (builder_never_None (w_selector (body item))) as [[q Hq]|[e He]].
  - rewrite Hq. simpl. split; [lia|]. split.
    + intros ns q' [H|[]]. injection H as <- <-. auto.
    + intros names H. exists q.
      destruct (list_namespaced_pod _ _ q) as [answered|e]; [|discriminate].
      exists answered. injection H as <-. auto.
  - rewrite He. simpl. split; [lia|]. split; [intros ns q []|discriminate].
Qed.

(** ** Further lemmas on one cluster *)

Lemma gather_Raise_inv {A : Type} (tasks : list (Result A)) (e : PyExc) :
  gather tasks = Raise e -> In (Raise e) tasks.
Proof.
  induction tasks as [|t rest IH]; simpl; [discriminate|].
  destruct t as [a|e0].
  - destruct (gather rest) as [l|e1]; [discriminate|].
    intros H. injection H as ->. right. now apply IH.
  - intros H. injection H as ->. now left.
Qed.

Lemma in_map_Ok {A : Type} (r : Result A) (l : list A) :
  In r (map Ok l) -> exists a, r = Ok a.
Proof.
  intros H. apply in_map_iff in H. destruct H as [a [<- _]]. now exists a.
Qed.

Lemma kind_listings_config (s1 s2 : ClusterLoader.t) :
  ClusterLoader.self_cluster s1 = ClusterLoader.self_cluster s2 ->
  ClusterLoader.self_api s1 = ClusterLoader.self_api s2 ->
  ClusterLoader.kind_listings s1 = ClusterLoader.kind_listings s2.
Proof.
  destruct s1 as [c1 g1 a1], s2 as [c2 g2 a2]. simpl. intros -> ->. reflexivity.
Qed.

Lemma in_records_of (self : ClusterLoader.t) (items : list K8sItem)
      (obj : K8sObjectData) :
  In obj (records_of self items) <->
  exists item c, In item items /\ In c (w_containers (body item)) /\
                 obj = record_of self item c.
Proof.
  unfold records_of. rewrite in_flat_map. split.
  - intros [item [Hi H]]. apply in_map_iff in H. destruct H as [c [<- Hc]].
    exists item, c. auto.
  - intros [item [c [Hi [Hc ->]]]]. exists item. split; [assumption|].
    now apply in_map.
Qed.

Lemma listed_items_Ok (api : ClusterApi) (ds ss dms js : list Workload) :
  list_deployment_for_all_namespaces api = Ok ds ->
  list_stateful_set_for_all_namespaces api = Ok ss ->
  list_daemon_set_for_all_namespaces api = Ok dms ->
  list_job_for_all_namespaces api = Ok js ->
  listed_items api
  = (map V1Deployment ds ++ map V1StatefulSet ss
     ++ map V1DaemonSet dms ++ map V1Job js)%list.
Proof. unfold listed_items. intros -> -> -> ->. reflexivity. Qed.

(** A scan whose listings return: the result, and every task returned. *)
Lemma scan_success (self : ClusterLoader.t)
      (objects_tuple : list (list K8sObjectData)) :
  gather (ClusterLoader.kind_listings self) = Ok objects_tuple ->
  ClusterLoader.list_scannable_objects self
  = filter (keptb (ClusterLoader.self_config self))
           (records_of self (listed_items (ClusterLoader.self_api self))) /\
  (forall e, ~ In (Raise e) (ClusterLoader.kind_listings self)) /\
  forall item c,
    In item (listed_items (ClusterLoader.self_api self)) ->
    In c (w_containers (body item)) ->
    ClusterLoader.__build_obj self item c = Ok (record_of self item c).
Proof.
  intros H. split; [|split].
  - rewrite (scan_unfold_Ok self objects_tuple H).
    destruct (kind_listings_Ok self objects_tuple H)
      as [ds [ss [dms [js [E1 [E2 [E3 [E4 ->]]]]]]]].
    rewrite (listed_items_Ok _ ds ss dms js E1 E2 E3 E4).
    unfold records_of. rewrite !flat_map_app. simpl. now rewrite app_nil_r.
  - intros e He. apply gather_Ok_inv in H. rewrite H in He.
    apply in_map_Ok in He. destruct He as [a Ha]. discriminate.
  - intros item c Hi Hc.
    destruct (listed_item_kind _ item Hi) as [k [ws [Hk Hw]]].
    pose proof (kind_listing_in k self) as Hin.
    apply gather_Ok_inv in H. rewrite H in Hin.
    apply in_map_Ok in Hin. destruct Hin as [objs Hobjs].
    rewrite kind_listing_unfold, Hk in Hobjs. simpl in Hobjs.
    apply gather_Ok_inv in Hobjs.
    assert (Ht : In (ClusterLoader.__build_obj self item c)
                    (build_tasks self (map (wrap k) ws))).
    { unfold build_tasks. apply in_flat_map. exists item.
      split; [assumption|]. apply in_map_iff. exists c. now split. }
    rewrite Hobjs in Ht. apply in_map_Ok in Ht. destruct Ht as [obj Hobj].
    rewrite Hobj. f_equal. now apply build_obj_Ok.
Qed.

Lemma scan_cases (self : ClusterLoader.t) :
  (fails self /\ ClusterLoader.list_scannable_objects self = []) \/
  (exists objects_tuple,
      gather (ClusterLoader.kind_listings self) = Ok objects_tuple).
Proof.
  destruct (gather (ClusterLoader.kind_listings self)) as [t|e] eqn:E.
  - right. now exists t.
  - left. split; [|now apply (scan_Raise self e)].
    left. exists e. now apply gather_Raise_inv.
Qed.

Lemma scan_shape (self : ClusterLoader.t) :
  ClusterLoader.list_scannable_objects self = [] \/
  ClusterLoader.list_scannable_objects self
  = filter (keptb (ClusterLoader.self_config self))
           (records_of self (listed_items (ClusterLoader.self_api self))).
Proof.
  destruct (scan_cases self) as [[_ E]|[t Ht]]; [now left|right].
  exact (proj1 (scan_success self t Ht)).
Qed.

Lemma list_pods_Ok_inv (self : ClusterLoader.t) (item : K8sItem)
      (names : list string) :
  snd (ClusterLoader.__list_pods self item) = Ok names ->
  exists q answered,
    ClusterLoader._build_selector_query (w_selector (body item)) = Ok (Some q) /\
    list_namespaced_pod (ClusterLoader.self_api self)
                        (w_namespace (body item)) q = Ok answered /\
    names = map p_name answered.
Proof.
  unfold ClusterLoader.__list_pods.
  destruct (builder_never_None (w_selector (body item))) as [[q Hq]|[e He]].
  - rewrite Hq. simpl. intros H. exists q.
    destruct (list_namespaced_pod _ _ q) as [answered|e]; [|discriminate].
    exists answered. injection H as <-. auto.
  - rewrite He. simpl. discriminate.
Qed.

Lemma kind_of_item (item : K8sItem) :
  In (slice_from_2 (class_name item))
     ["Deployment"; "StatefulSet"; "DaemonSet"; "Job"].
Proof. destruct item; simpl; tauto. Qed.

Lemma filter_filter_and {A : Type} (p q : A -> bool) (l : list A) :
  filter p (filter q l) = filter (fun x => (q x && p x)%bool) l.
Proof.
  induction l as [|x l IH]; simpl; [reflexivity|].
  destruct (q x); simpl; [destruct (p x)|]; now rewrite IH.
Qed.

(** ** More on one cluster *)

(** X6.  Every record a cluster returns carries the cluster of its loader,
    passes the namespace policy, has one of the four kinds, and is the
    record built for a listed workload and one of its containers. *)
Theorem X6_records_come_from_listed_workloads (self : ClusterLoader.t)
        (obj : K8sObjectData) :
  In obj (ClusterLoader.list_scannable_objects self) ->
  cluster obj = ClusterLoader.self_cluster self /\
  kept (ClusterLoader.self_config self) obj /\
  In (kind obj) ["Deployment"; "StatefulSet"; "DaemonSet"; "Job"] /\
  exists item c,
    In item (listed_items (ClusterLoader.self_api self)) /\
    In c (w_containers (body item)) /\
    ClusterLoader.__build_obj self item c = Ok obj.
Proof.
  intros Hin. destruct (scan_cases self) as [[_ E]|[t Ht]].
  - rewrite E in Hin. destruct Hin.
  - destruct (scan_success self t Ht) as [Es [_ Hb]]. rewrite Es in Hin.
    apply filter_In in Hin. destruct Hin as [Hr Hk].
    apply in_records_of in Hr. destruct Hr as [item [c [Hi [Hc ->]]]].
    split; [reflexivity|]. split; [now apply keptb_kept|].
    split; [apply kind_of_item|]. exists item, c. auto.
Qed.

Lemma X6_records_come_from_listed_workloads_witness :
  cluster (record_of (Sample.loader "prod" Sample.everything)
                     (V1StatefulSet Sample.db) Sample.app)
  = Some "prod" /\
  kept Sample.everything
       (record_of (Sample.loader "prod" Sample.everything)
                  (V1StatefulSet Sample.db) Sample.app) /\
  In (kind (record_of (Sample.loader "prod" Sample.everything)
                      (V1StatefulSet Sample.db) Sample.app))
     ["Deployment"; "StatefulSet"; "DaemonSet"; "Job"] /\
  exists item c,
    In item (listed_items Sample.prod) /\
    In c (w_containers (body item)) /\
    ClusterLoader.__build_obj (Sample.loader "prod" Sample.everything) item c
    = Ok (record_of (Sample.loader "prod" Sample.everything)
                    (V1StatefulSet Sample.db) Sample.app).
Proof.
  refine (X6_records_come_from_listed_workloads
            (Sample.loader "prod" Sample.everything)
            (record_of (Sample.loader "prod" Sample.everything)
                       (V1StatefulSet Sample.db) Sample.app) _).
  simpl. right. right. left. reflexivity.
Defined.

(** X7.  The pods of a returned record are the names, in order, that the
    cluster answered for the namespace of the record and the query of the
    selector of its workload. *)
Theorem X7_pods_of_a_record (self : ClusterLoader.t) (obj : K8sObjectData) :
  In obj (ClusterLoader.list_scannable_objects self) ->
  exists item q answered,
    In item (listed_items (ClusterLoader.self_api self)) /\
    namespace obj = w_namespace (body item) /\
    name obj = w_name (body item) /\
    ClusterLoader._build_selector_query (w_selector (body item)) = Ok (Some q) /\
    list_namespaced_pod (ClusterLoader.self_api self) (namespace obj) q
    = Ok answered /\
    pods obj = map p_name answered.
Proof.
  intros Hin. destruct (scan_cases self) as [[_ E]|[t Ht]].
  - rewrite E in Hin. destruct Hin.
  - destruct (scan_success self t Ht) as [Es [_ Hb]]. rewrite Es in Hin.
    apply filter_In in Hin. destruct Hin as [Hr _].
    apply in_records_of in Hr. destruct Hr as [item [c [Hi [Hc ->]]]].
    specialize (Hb item c Hi Hc).
    unfold ClusterLoader.__build_obj in Hb.
    destruct (snd (ClusterLoader.__list_pods self item)) as [names|e] eqn:Ep;
      [|discriminate].
    destruct (list_pods_Ok_inv self item names Ep) as [q [answered [Hq [Ha ->]]]].
    exists item, q, answered. simpl.
    repeat (split; [assumption || reflexivity|]).
    unfold pod_names. now rewrite Ep.
Qed.

Lemma X7_pods_of_a_record_witness :
  exists item q answered,
    In item (listed_items Sample.prod) /\
    "default" = w_namespace (body item) /\
    "web" = w_name (body item) /\
    ClusterLoader._build_selector_query (w_selector (body item)) = Ok (Some q) /\
    list_namespaced_pod Sample.prod "default" q = Ok answered /\
    ["web-2"; "web-0"; "web-1"] = map p_name answered.
Proof.
  refine (X7_pods_of_a_record
            (Sample.loader "prod" Sample.everything)
            (record_of (Sample.loader "prod" Sample.everything)
                       (V1Deployment Sample.web) Sample.sidecar) _).
  simpl. right. left. reflexivity.
Defined.

(** X8.  A cluster scan is all or nothing: either a kind listing or a build
    task raised and the result is empty, or nothing raised and the result
    is the filtered records of every listed workload and container. *)
Theorem X8_all_or_nothing (self : ClusterLoader.t) :
  (fails self /\ ClusterLoader.list_scannable_objects self = []) \/
  (~ fails self /\
   ClusterLoader.list_scannable_objects self
   = filter (keptb (ClusterLoader.self_config self))
            (records_of self (listed_items (ClusterLoader.self_api self)))).
Proof.
  destruct (scan_cases self) as [H|[t Ht]]; [now left|right].
  destruct (scan_success self t Ht) as [Es [Hk Hb]].
  split; [|assumption].
  intros [[e He]|[item [c [e [Hi [Hc He]]]]]].
  - exact (Hk e He).
  - rewrite (Hb item c Hi Hc) in He. discriminate.
Qed.

(** X9.  The namespace filter is applied after a discovery that does not
    depend on it: for one cluster, the result under a list of namespaces
    without kube-system is the result under the wildcard restricted to the
    list. *)
Theorem X9_list_restricts_wildcard (s1 s2 : ClusterLoader.t) (l : list string) :
  ClusterLoader.self_cluster s1 = ClusterLoader.self_cluster s2 ->
  ClusterLoader.self_api s1 = ClusterLoader.self_api s2 ->
  namespaces (ClusterLoader.self_config s1) = NsAll ->
  namespaces (ClusterLoader.self_config s2) = NsList l ->
  ~ In "kube-system" l ->
  ClusterLoader.list_scannable_objects s2
  = filter (fun obj => ClusterLoader.py_in (namespace obj) l)
           (ClusterLoader.list_scannable_objects s1).
Proof.
  intros Hc Ha H1 H2 Hk. unfold ClusterLoader.list_scannable_objects.
  rewrite (kind_listings_config s1 s2 Hc Ha), H1, H2.
  destruct (gather (ClusterLoader.kind_listings s2)) as [t|e]; [|reflexivity].
  rewrite filter_filter_and. apply filter_ext. intros obj.
  destruct (ClusterLoader.py_in (namespace obj) l) eqn:E;
    [|now rewrite andb_false_r].
  rewrite andb_true_r. symmetry. apply negb_true_iff, String.eqb_neq.
  intros Hn. apply Hk. rewrite <- Hn. now apply py_in_In.
Qed.

Lemma X9_list_restricts_wildcard_witness :
  ClusterLoader.list_scannable_objects
    (Sample.loader "prod" (Sample.only ["data"; "ghost"] ClAll))
  = filter (fun obj => ClusterLoader.py_in (namespace obj) ["data"; "ghost"])
           (ClusterLoader.list_scannable_objects
              (Sample.loader "prod" Sample.everything)).
Proof.
  refine (X9_list_restricts_wildcard
            (Sample.loader "prod" Sample.everything)
            (Sample.loader "prod" (Sample.only ["data"; "ghost"] ClAll))
            ["data"; "ghost"] eq_refl eq_refl eq_refl eq_refl _).
  simpl. intros [H|[H|[]]]; discriminate H.
Defined.

(** X10.  Narrowing the list of namespaces narrows the result and changes
    nothing else: the result under a list is the result under any larger
    list restricted to the smaller one. *)
Theorem X10_narrower_list (s1 s2 : ClusterLoader.t) (l1 l2 : list string) :
  ClusterLoader.self_cluster s1 = ClusterLoader.self_cluster s2 ->
  ClusterLoader.self_api s1 = ClusterLoader.self_api s2 ->
  namespaces (ClusterLoader.self_config s1) = NsList l1 ->
  namespaces (ClusterLoader.self_config s2) = NsList l2 ->
  incl l1 l2 ->
  ClusterLoader.list_scannable_objects s1
  = filter (fun obj => ClusterLoader.py_in (namespace obj) l1)
           (ClusterLoader.list_scannable_objects s2).
Proof.
  intros Hc Ha H1 H2 Hi. unfold ClusterLoader.list_scannable_objects.
  rewrite (kind_listings_config s1 s2 Hc Ha), H1, H2.
  destruct (gather (ClusterLoader.kind_listings s2)) as [t|e]; [|reflexivity].
  rewrite filter_filter_and. apply filter_ext. intros obj.
  destruct (ClusterLoader.py_in (namespace obj) l1) eqn:E;
    [|now rewrite andb_false_r].
  rewrite andb_true_r. symmetry. apply py_in_In, Hi. now apply py_in_In.
Qed.

Lemma X10_narrower_list_witness :
  ClusterLoader.list_scannable_objects
    (Sample.loader "prod" (Sample.only ["data"] ClAll))
  = filter (fun obj => ClusterLoader.py_in (namespace obj) ["data"])
           (ClusterLoader.list_scannable_objects
              (Sample.loader "prod" (Sample.only ["kube-system"; "data"] ClAll))).
Proof.
  refine (X10_narrower_list
            (Sample.loader "prod" (Sample.only ["data"] ClAll))
            (Sample.loader "prod" (Sample.only ["kube-system"; "data"] ClAll))
            ["data"] ["kube-system"; "data"] eq_refl eq_refl eq_refl eq_refl _).
  intros n [<-|[]]. right. left. reflexivity.
Defined.

(** X11.  An empty list of namespaces is not read as the wildcard: the
    cluster returns nothing. *)
Theorem X11_empty_namespace_list (self : ClusterLoader.t) :
  namespaces (ClusterLoader.self_config self) = NsList [] ->
  ClusterLoader.list_scannable_objects self = [].
Proof.
  intros H. unfold ClusterLoader.list_scannable_objects. rewrite H.
  destruct (gather (ClusterLoader.kind_listings self)) as [t|e]; [|reflexivity].
  apply filter_false.
Qed.

Lemma X11_empty_namespace_list_witness :
  ClusterLoader.list_scannable_objects
    (Sample.loader "prod" (Sample.only [] ClAll)) = [].
Proof.
  exact (X11_empty_namespace_list
           (Sample.loader "prod" (Sample.only [] ClAll)) eq_refl).
Defined.

(** X12.  A cluster never returns more records than its listed workloads
    have containers. *)
Theorem X12_record_count_bound (self : ClusterLoader.t) :
  length (ClusterLoader.list_scannable_objects self)
  <= list_sum (map (fun item => length (w_containers (body item)))
                   (listed_items (ClusterLoader.self_api self))).
Proof.
  destruct (scan_shape self) as [E|E]; rewrite E; [simpl; lia|].
  etransitivity; [apply filter_length_le|].
  unfold records_of. rewrite length_flat_map_sum.
  apply Nat.eq_le_incl. f_equal. apply map_ext. intros item. apply length_map.
Qed.

(** ** Further lemmas on the clusters of a scan *)

Lemma names_filter (p : string -> bool) (contexts : list KubeContext) :
  map ctx_name (filter (fun context => p (ctx_name context)) contexts)
  = filter p (map ctx_name contexts).
Proof.
  induction contexts as [|c cs IH]; [reflexivity|].
  cbn [filter map]. destruct (p (ctx_name c)); cbn [map]; now rewrite IH.
Qed.

Lemma py_in_ext (l1 l2 : list string) (n : string) :
  (forall m, In m l1 <-> In m l2) ->
  ClusterLoader.py_in n l1 = ClusterLoader.py_in n l2.
Proof.
  intros H. destruct (ClusterLoader.py_in n l2) eqn:E.
  - apply py_in_In, H, py_in_In, E.
  - destruct (ClusterLoader.py_in n l1) eqn:E1; [|reflexivity].
    apply py_in_In, H, py_in_In in E1. congruence.
Qed.

Lemma filter_all {A : Type} (p : A -> bool) (l : list A) :
  (forall x, In x l -> p x = true) -> filter p l = l.
Proof.
  induction l as [|x l IH]; intros H; simpl; [reflexivity|].
  rewrite (H x (or_introl eq_refl)), IH; [reflexivity|].
  intros y Hy. apply H. now right.
Qed.

Lemma filter_none {A : Type} (p : A -> bool) (l : list A) :
  (forall x, In x l -> p x = false) -> filter p l = [].
Proof.
  induction l as [|x l IH]; intros H; simpl; [reflexivity|].
  rewrite (H x (or_introl eq_refl)). apply IH.
  intros y Hy. apply H. now right.
Qed.

Lemma scan_record_cluster (self : ClusterLoader.t) (obj : K8sObjectData) :
  In obj (ClusterLoader.list_scannable_objects self) ->
  cluster obj = ClusterLoader.self_cluster self /\
  keptb (ClusterLoader.self_config self) obj = true.
Proof.
  intros Hin. destruct (scan_shape self) as [E|E]; rewrite E in Hin;
    [destruct Hin|].
  apply filter_In in Hin. destruct Hin as [Hr Hk]. split; [|assumption].
  apply in_records_of in Hr. destruct Hr as [item [c [_ [_ ->]]]]. reflexivity.
Qed.

(** ** More on the clusters of a scan *)

(** X13.  Outside a cluster, every resolved name is the current context
    or an enumerated context, and when the store lists no name twice no
    cluster is resolved twice. *)
Theorem X13_resolved_names (kube : Kube) (config : Config)
        (contexts : list KubeContext) (current_context : KubeContext)
        (resolved : list string) :
  list_kube_config_contexts kube = Ok (contexts, current_context) ->
  KubernetesLoader.list_clusters kube config = Ok (Some resolved) ->
  (forall n, In n resolved ->
             n = ctx_name current_context \/ In n (map ctx_name contexts)) /\
  (NoDup (map ctx_name contexts) -> NoDup resolved).
Proof.
  intros Hs. unfold KubernetesLoader.list_clusters. rewrite Hs.
  destruct (inside_cluster config); [discriminate|]. simpl.
  assert (Hone : forall (P : Prop),
             (forall n, In n [ctx_name current_context] ->
                        n = ctx_name current_context \/ In n (map ctx_name contexts)) /\
             (P -> NoDup [ctx_name current_context])).
  { intros P. split.
    - intros n [<-|[]]. now left.
    - intros _. constructor; [intros []|constructor]. }
  destruct (clusters config) as [| |[|x l]]; simpl; intros H; injection H as <-;
    try apply Hone.
  - split; [intros n Hn; now right|trivial].
  - rewrite (names_filter (fun n => ClusterLoader.py_in n (x :: l))). split.
    + intros n Hn. right. apply filter_In in Hn. apply Hn.
    + apply NoDup_filter.
Qed.

Lemma X13_resolved_names_witness :
  (forall n, In n ["prod"; "down"] ->
             n = "staging" \/ In n ["prod"; "staging"; "down"]) /\
  (NoDup ["prod"; "staging"; "down"] -> NoDup ["prod"; "down"]).
Proof.
  exact (X13_resolved_names
           Sample.kube (Sample.only [] (ClList ["down"; "ghost"; "prod"]))
           [Sample.ctx "prod"; Sample.ctx "staging"; Sample.ctx "down"]
           (Sample.ctx "staging") ["prod"; "down"] eq_refl eq_refl).
Defined.

(** X14.  An explicit cluster filter is read as a set: two lists with the
    same members, in any order and with any repetition, resolve alike. *)
Theorem X14_filter_is_a_set (kube : Kube) (cfg1 cfg2 : Config)
        (l1 l2 : list string) :
  inside_cluster cfg1 = inside_cluster cfg2 ->
  clusters cfg1 = ClList l1 ->
  clusters cfg2 = ClList l2 ->
  (forall n, In n l1 <-> In n l2) ->
  KubernetesLoader.list_clusters kube cfg1 = KubernetesLoader.list_clusters kube cfg2.
Proof.
  intros Hi H1 H2 Hm. unfold KubernetesLoader.list_clusters.
  rewrite Hi, H1, H2. destruct (inside_cluster cfg2); [reflexivity|].
  destruct (list_kube_config_contexts kube) as [[contexts current_context]|e];
    [|reflexivity].
  simpl. destruct l1 as [|x1 l1], l2 as [|x2 l2].
  - reflexivity.
  - destruct (proj2 (Hm x2) (or_introl eq_refl)).
  - destruct (proj1 (Hm x1) (or_introl eq_refl)).
  - simpl. do 3 f_equal. apply filter_ext. intros c.
    exact (py_in_ext (x1 :: l1) (x2 :: l2) (ctx_name c) Hm).
Qed.

Lemma X14_filter_is_a_set_witness :
  KubernetesLoader.list_clusters
    Sample.kube (Sample.only [] (ClList ["down"; "prod"]))
  = KubernetesLoader.list_clusters
      Sample.kube (Sample.only [] (ClList ["prod"; "down"; "prod"])).
Proof.
  refine (X14_filter_is_a_set
            Sample.kube
            (Sample.only [] (ClList ["down"; "prod"]))
            (Sample.only [] (ClList ["prod"; "down"; "prod"]))
            ["down"; "prod"] ["prod"; "down"; "prod"] eq_refl eq_refl eq_refl _).
  intros n. simpl. tauto.
Defined.

(** X15.  When the store enumerates a context, naming every enumerated
    context resolves as the wildcard does. *)
Theorem X15_all_names_is_wildcard (kube : Kube) (cfg1 cfg2 : Config)
        (contexts : list KubeContext) (current_context : KubeContext) :
  list_kube_config_contexts kube = Ok (contexts, current_context) ->
  contexts <> [] ->
  inside_cluster cfg1 = inside_cluster cfg2 ->
  clusters cfg1 = ClAll ->
  clusters cfg2 = ClList (map ctx_name contexts) ->
  KubernetesLoader.list_clusters kube cfg1 = KubernetesLoader.list_clusters kube cfg2.
Proof.
  intros Hs Hne Hi H1 H2. unfold KubernetesLoader.list_clusters.
  rewrite Hi, H1, H2, Hs. destruct (inside_cluster cfg2); [reflexivity|].
  destruct contexts as [|c cs]; [now destruct Hne|].
  cbn [bind KubernetesLoader.falsy map]. do 2 f_equal.
  change (map ctx_name (c :: cs)
          = map ctx_name
                (filter (fun context =>
                           ClusterLoader.py_in (ctx_name context)
                                               (map ctx_name (c :: cs)))
                        (c :: cs))).
  rewrite filter_all; [reflexivity|].
  intros c' Hc'. apply py_in_In. now apply in_map.
Qed.

Lemma X15_all_names_is_wildcard_witness :
  KubernetesLoader.list_clusters Sample.kube Sample.everything
  = KubernetesLoader.list_clusters
      Sample.kube (Sample.only [] (ClList ["prod"; "staging"; "down"])).
Proof.
  refine (X15_all_names_is_wildcard
            Sample.kube Sample.everything
            (Sample.only [] (ClList ["prod"; "staging"; "down"]))
            [Sample.ctx "prod"; Sample.ctx "staging"; Sample.ctx "down"]
            (Sample.ctx "staging") eq_refl _ eq_refl eq_refl eq_refl).
  discriminate.
Defined.

(** X16.  A non-empty filter that names no enumerated context resolves to
    no cluster at all, not to the current context, and the scan of no
    cluster returns the empty list. *)
Theorem X16_unknown_names_scan_nothing (kube : Kube) (config : Config)
        (contexts : list KubeContext) (current_context : KubeContext)
        (l : list string) :
  inside_cluster config = false ->
  list_kube_config_contexts kube = Ok (contexts, current_context) ->
  clusters config = ClList l ->
  l <> [] ->
  (forall n, In n l -> ~ In n (map ctx_name contexts)) ->
  KubernetesLoader.list_clusters kube config = Ok (Some []) /\
  (clusters <- KubernetesLoader.list_clusters kube config ;;
   KubernetesLoader.list_scannable_objects kube config clusters) = Ok [].
Proof.
  intros Hi Hs Hc Hne Hun.
  assert (E : KubernetesLoader.list_clusters kube config = Ok (Some [])).
  { unfold KubernetesLoader.list_clusters. rewrite Hi, Hs, Hc.
    destruct l as [|x l]; [now destruct Hne|]. simpl. do 2 f_equal.
    rewrite (names_filter (fun n => ClusterLoader.py_in n (x :: l))).
    apply filter_none. intros n Hn.
    destruct (ClusterLoader.py_in n (x :: l)) eqn:E; [|reflexivity].
    apply py_in_In in E. now destruct (Hun n E). }
  split; [exact E|]. rewrite E. reflexivity.
Qed.

Lemma X16_unknown_names_scan_nothing_witness :
  KubernetesLoader.list_clusters
    Sample.kube (Sample.only [] (ClList ["ghost"])) = Ok (Some []) /\
  (clusters <- KubernetesLoader.list_clusters
                 Sample.kube (Sample.only [] (ClList ["ghost"])) ;;
   KubernetesLoader.list_scannable_objects
     Sample.kube (Sample.only [] (ClList ["ghost"])) clusters) = Ok [].
Proof.
  refine (X16_unknown_names_scan_nothing
            Sample.kube (Sample.only [] (ClList ["ghost"]))
            [Sample.ctx "prod"; Sample.ctx "staging"; Sample.ctx "down"]
            (Sample.ctx "staging") ["ghost"] eq_refl eq_refl eq_refl _ _).
  - discriminate.
  - intros n [<-|[]]. simpl. intros [H|[H|[H|[]]]]; discriminate H.
Defined.

(** X17.  The scan of a list of clusters is the scan of a first part
    followed by the scan of the rest: the two results appended when both
    return, the exception of the first part that raises otherwise.  A name
    given twice is scanned twice. *)
Theorem X17_scan_of_appended_names (kube : Kube) (config : Config)
        (a b : list string) :
  KubernetesLoader.list_scannable_objects kube config (Some (a ++ b)%list)
  = (la <- KubernetesLoader.list_scannable_objects kube config (Some a) ;;
     lb <- KubernetesLoader.list_scannable_objects kube config (Some b) ;;
     Ok (la ++ lb)%list).
Proof.
  unfold KubernetesLoader.list_scannable_objects, KubernetesLoader.cluster_loaders.
  rewrite comprehension_app.
  destruct (comprehension _ a) as [l1|e]; simpl; [|reflexivity].
  rewrite gather_total. simpl.
  destruct (comprehension _ b) as [l2|e]; simpl; [|reflexivity].
  rewrite !gather_total. simpl. now rewrite map_app, concat_app.
Qed.

(** X18.  Every record of a scan names the cluster it was found in, one of
    the requested names or none for the ambient context, is in the result
    of the loader of that cluster, and passes the namespace policy. *)
Theorem X18_records_name_their_cluster (kube : Kube) (config : Config)
        (clusters : option (list string)) (objs : list K8sObjectData)
        (obj : K8sObjectData) :
  KubernetesLoader.list_scannable_objects kube config clusters = Ok objs ->
  In obj objs ->
  (exists self,
      ClusterLoader.init kube (cluster obj) config = Ok self /\
      In obj (ClusterLoader.list_scannable_objects self)) /\
  kept config obj /\
  match clusters with
  | None => cluster obj = None
  | Some names => exists c, cluster obj = Some c /\ In c names
  end.
Proof.
  intros H Hin.
  destruct (KubernetesLoader.cluster_loaders kube config clusters)
    as [loaders|e] eqn:El.
  2:{ unfold KubernetesLoader.list_scannable_objects in H.
      rewrite El in H. discriminate H. }
  rewrite (orchestrator_built _ _ _ _ El) in H. injection H as <-.
  apply in_flat_map in Hin. destruct Hin as [self [Hs Ho]].
  destruct (scan_record_cluster self obj Ho) as [E K].
  assert (Hb : exists cl, ClusterLoader.init kube cl config = Ok self /\
                          match clusters with
                          | None => cl = None
                          | Some names => exists c, cl = Some c /\ In c names
                          end).
  { destruct clusters as [names|].
    - unfold KubernetesLoader.cluster_loaders in El.
      apply comprehension_Ok_inv in El.
      induction El as [|c l names loaders Hl _ IH]; [destruct Hs|].
      destruct Hs as [->|Hs].
      + exists (Some c). split; [assumption|]. exists c. split; [reflexivity|now left].
      + destruct (IH Hs) as [cl [Hcl [c' [-> Hc']]]].
        exists (Some c'). split; [assumption|]. exists c'. split; [reflexivity|now right].
    - simpl in El. injection El as <-. destruct Hs as [<-|[]].
      exists None. split; reflexivity. }
  destruct Hb as [cl [Hcl Hm]].
  destruct (init_Ok_inv kube cl config self Hcl) as [Ec [Eg _]].
  rewrite E, Ec. split; [now exists self|].
  split; [apply keptb_kept; now rewrite <- Eg|exact Hm].
Qed.

Lemma X18_records_name_their_cluster_witness :
  (exists self,
      ClusterLoader.init Sample.kube (Some "staging") Sample.everything = Ok self /\
      In (record_of (Sample.loader "staging" Sample.everything)
                    (V1Deployment Sample.web) Sample.app)
         (ClusterLoader.list_scannable_objects self)) /\
  kept Sample.everything
       (record_of (Sample.loader "staging" Sample.everything)
                  (V1Deployment Sample.web) Sample.app) /\
  exists c, Some "staging" = Some c /\ In c ["down"; "staging"].
Proof.
  refine (X18_records_name_their_cluster
            Sample.kube Sample.everything (Some ["down"; "staging"])
            (ClusterLoader.list_scannable_objects
               (Sample.loader "staging" Sample.everything))
            (record_of (Sample.loader "staging" Sample.everything)
                       (V1Deployment Sample.web) Sample.app)
            eq_refl _).
  simpl. left. reflexivity.
Defined.

(** X19.  The handler of a cluster does not cover the building of its
    client: when the client of a requested name cannot be built the scan
    raises the exception of such a name, whatever the other clusters
    hold. *)
Theorem X19_unbuilt_client_ends_the_scan (kube : Kube) (config : Config)
        (names : list string) (c : string) (e : PyExc) :
  In c names ->
  new_client_from_config kube c = Raise e ->
  exists c' e',
    In c' names /\
    new_client_from_config kube c' = Raise e' /\
    KubernetesLoader.list_scannable_objects kube config (Some names) = Raise e'.
Proof.
  intros Hc He.
  destruct (KubernetesLoader.cluster_loaders kube config (Some names))
    as [loaders|e'] eqn:El.
  - exfalso. unfold KubernetesLoader.cluster_loaders in El.
    apply comprehension_Ok_inv in El.
    induction El as [|c0 l names loaders Hl _ IH]; [destruct Hc|].
    destruct Hc as [->|Hc]; [|now apply IH].
    unfold ClusterLoader.init in Hl. rewrite He in Hl. discriminate Hl.
  - unfold KubernetesLoader.cluster_loaders in El.
    destruct (comprehension_Raise_inv _ names e' El) as [c' [Hc' Hi]].
    exists c', e'. split; [assumption|]. split.
    + unfold ClusterLoader.init in Hi.
      destruct (new_client_from_config kube c') as [api|e0]; simpl in Hi;
        [discriminate Hi|]. now injection Hi as ->.
    + unfold KubernetesLoader.list_scannable_objects,
        KubernetesLoader.cluster_loaders. now rewrite El.
Qed.

Lemma X19_unbuilt_client_ends_the_scan_witness :
  exists c' e',
    In c' ["prod"; "ghost"; "staging"] /\
    new_client_from_config Sample.kube c' = Raise e' /\
    KubernetesLoader.list_scannable_objects
      Sample.kube Sample.everything (Some ["prod"; "ghost"; "staging"])
    = Raise e'.
Proof.
  refine (X19_unbuilt_client_ends_the_scan
            Sample.kube Sample.everything ["prod"; "ghost"; "staging"] "ghost"
            (ConfigException "Invalid kube-config file") _ eq_refl).
  right. left. reflexivity.
Defined.
